(** * Stream processors and data streams: a shallow embedding

    The two demo programs [ex0/stream_processor.py] (the processor
    hierarchy) and [ex1/data_stream.py] (the stream hierarchy and its
    orchestrator) are embedded as Rocq functions over a small universe of
    Python values.  Exceptions are explicit results, [print] is a writer of
    lines, the mutable [processed_count] is threaded through
    [process_batch], and the stream objects held by a [StreamProcessor] live
    in a store addressed by references, since a list may hold the same
    object twice.  Where versions of the language differ, the embedding
    follows CPython 3.11. *)

From Stdlib Require Import ZArith QArith Qpower Qfield Bool Ascii String List Lia.
From Stdlib Require Import Floats.SpecFloat.
From stdpp Require Import gmap strings list.

Local Open Scope string_scope.
Local Open Scope Z_scope.

(** ** Exceptions and results *)

Inductive exn :=
| TypeError
| AttributeError
| ZeroDivisionError
| OverflowError
| ValueError.

Inductive result (A : Type) :=
| Ok (a : A)
| Raise (e : exn).
Arguments Ok {A} a.
Arguments Raise {A} e.

Definition bind {A B} (r : result A) (k : A -> result B) : result B :=
  match r with
  | Ok a => k a
  | Raise e => Raise e
  end.

Declare Scope py_scope.
Delimit Scope py_scope with py.
Notation "x <- c ;; k" := (bind c (fun x => k))
  (at level 100, c at next level, right associativity) : py_scope.
Local Open Scope py_scope.

Definition exn_eqb (a b : exn) : bool :=
  match a, b with
  | TypeError, TypeError
  | AttributeError, AttributeError
  | ZeroDivisionError, ZeroDivisionError
  | OverflowError, OverflowError
  | ValueError, ValueError => true
  | _, _ => false
  end.

Definition raises {A} (r : result A) : Prop := exists e, r = Raise e.

(** ** Python values *)

(** A Python [float] is an IEEE binary64 number. *)
Definition prec : Z := 53.
Definition emax : Z := 1024.

#[warnings="-register-all"]
Inductive pyval :=
| VNone
| VBool (b : bool)
| VInt (z : Z)
| VFloat (f : spec_float)
| VStr (s : string)
| VList (l : list pyval).

(** The numeric tower as far as the programs use it: [bool] is a subclass
    of [int]. *)
Inductive num :=
| NInt (z : Z)
| NFloat (f : spec_float).

Definition as_num (v : pyval) : option num :=
  match v with
  | VBool b => Some (NInt (Z.b2z b))
  | VInt z => Some (NInt z)
  | VFloat f => Some (NFloat f)
  | _ => None
  end.

Definition of_num (x : num) : pyval :=
  match x with
  | NInt z => VInt z
  | NFloat f => VFloat f
  end.

Definition is_numeric (v : pyval) : bool :=
  match as_num v with Some _ => true | None => false end.

(** [isinstance(v, str)] *)
Definition isinstance_str (v : pyval) : bool :=
  match v with VStr _ => true | _ => false end.

(** *** Arithmetic *)

(** [float(z)]: rounded to nearest even, [OverflowError] outside the range. *)
Definition float_of_int (z : Z) : result spec_float :=
  match binary_normalize prec emax z 0 false with
  | S754_infinity _ => Raise OverflowError
  | f => Ok f
  end.

(** [a + b] on numbers; an [int] operand is converted when the other one is
    a [float]. *)
Definition num_add (a b : num) : result num :=
  match a, b with
  | NInt x, NInt y => Ok (NInt (x + y))
  | NInt x, NFloat g => f <- float_of_int x ;; Ok (NFloat (SFadd prec emax f g))
  | NFloat f, NInt y => g <- float_of_int y ;; Ok (NFloat (SFadd prec emax f g))
  | NFloat f, NFloat g => Ok (NFloat (SFadd prec emax f g))
  end.

(** [a / b] for two ints: the correctly rounded quotient. *)
Definition int_true_div (a b : Z) : result spec_float :=
  match a, b with
  | _, Z0 => Raise ZeroDivisionError
  | Z0, _ => Ok (S754_zero (b <? 0))
  | _, _ =>
      match SFdiv prec emax
              (S754_finite (a <? 0) (Z.to_pos (Z.abs a)) 0)
              (S754_finite (b <? 0) (Z.to_pos (Z.abs b)) 0) with
      | S754_infinity _ => Raise OverflowError
      | q => Ok q
      end
  end.

(** [a / n] where [n] is an int (a length, in these programs).  A float is
    divided by the converted int, and the division by an int that is zero
    (whose conversion is [0.0]) is a [ZeroDivisionError]. *)
Definition num_truediv (a : num) (n : Z) : result spec_float :=
  match a with
  | NInt x => int_true_div x n
  | NFloat f =>
      if n =? 0 then Raise ZeroDivisionError
      else g <- float_of_int n ;; Ok (SFdiv prec emax f g)
  end.

(** [sum(items)]: starts from the int 0 and adds the items from left to
    right; a non-number cannot be added to the running total.  (From
    version 3.12 on CPython carries a compensation term while the items are
    floats; the sum here is the plain one of 3.11, and nothing below
    depends on how a sum of floats is rounded.) *)
Definition sum_step (acc : result num) (v : pyval) : result num :=
  a <- acc ;;
  match as_num v with
  | Some x => num_add a x
  | None => Raise TypeError
  end.

Definition py_sum (items : list pyval) : result num :=
  fold_left sum_step items (Ok (NInt 0)).

(** *** Comparison with an int constant *)

(** A float is compared with an int exactly, no rounding involved.  [None]
    stands for unordered (NaN). *)
Definition float_cmp_int (f : spec_float) (z : Z) : option comparison :=
  match f with
  | S754_nan => None
  | S754_infinity s => Some (if s then Lt else Gt)
  | S754_zero _ => Some (0 ?= z)
  | S754_finite s m e =>
      let m' := cond_Zopp s (Zpos m) in
      Some (if 0 <=? e then (m' * 2 ^ e ?= z) else (m' ?= z * 2 ^ (- e)))
  end.

Definition num_cmp_int (x : num) (z : Z) : option comparison :=
  match x with
  | NInt a => Some (a ?= z)
  | NFloat f => float_cmp_int f z
  end.

Definition cmp_with (test : option comparison -> bool) (v : pyval) (z : Z)
    : result bool :=
  match as_num v with
  | Some x => Ok (test (num_cmp_int x z))
  | None => Raise TypeError
  end.

(** [v > z], [v <= z], [v >= z], [v < z] *)
Definition py_gt : pyval -> Z -> result bool :=
  cmp_with (fun c => match c with Some Gt => true | _ => false end).
Definition py_le : pyval -> Z -> result bool :=
  cmp_with (fun c => match c with Some Lt | Some Eq => true | _ => false end).
Definition py_ge : pyval -> Z -> result bool :=
  cmp_with (fun c => match c with Some Gt | Some Eq => true | _ => false end).
Definition py_lt : pyval -> Z -> result bool :=
  cmp_with (fun c => match c with Some Lt => true | _ => false end).

(** *** Strings and containers *)

Fixpoint starts_with (t s : string) : bool :=
  match t, s with
  | EmptyString, _ => true
  | String a t', String b s' => Ascii.eqb a b && starts_with t' s'
  | String _ _, EmptyString => false
  end.

(** [t in s] for two strings: [t] occurs in [s] as a substring. *)
Fixpoint str_contains (t s : string) : bool :=
  starts_with t s ||
  match s with
  | EmptyString => false
  | String _ s' => str_contains t s'
  end.

(** [t in v]: substring test on a string, membership by equality on a list,
    [TypeError] on what is not a container. *)
Definition py_in (t : string) (v : pyval) : result bool :=
  match v with
  | VStr s => Ok (str_contains t s)
  | VList l =>
      Ok (existsb (fun x => match x with
                            | VStr s => String.eqb t s
                            | _ => false
                            end) l)
  | _ => Raise TypeError
  end.

Fixpoint chars (s : string) : list pyval :=
  match s with
  | EmptyString => []
  | String c s' => VStr (String c EmptyString) :: chars s'
  end.

(** The items a [for] loop sees. *)
Definition py_iter (v : pyval) : result (list pyval) :=
  match v with
  | VList l => Ok l
  | VStr s => Ok (chars s)
  | _ => Raise TypeError
  end.

(** [len(v)] *)
Definition py_len (v : pyval) : result Z :=
  match v with
  | VList l => Ok (Z.of_nat (length l))
  | VStr s => Ok (Z.of_nat (String.length s))
  | _ => Raise TypeError
  end.

(** [isinstance(v, float)] *)
Definition is_float (v : pyval) : bool :=
  match v with VFloat _ => true | _ => false end.

(** [v.is_integer] exists on floats only: [int], and [bool] with it, has
    the attribute from Python 3.12 on, not in 3.11. *)
Definition getattr_is_integer (v : pyval) : result unit :=
  if is_float v then Ok tt else Raise AttributeError.

(** [v.capitalize()] and [v.find(t) > -1] exist on strings only. *)
Definition call_capitalize (v : pyval) : result unit :=
  match v with
  | VStr _ => Ok tt
  | _ => Raise AttributeError
  end.

Definition call_find_found (v : pyval) (t : string) : result bool :=
  match v with
  | VStr s => Ok (str_contains t s)
  | _ => Raise AttributeError
  end.

(** Comprehension [[x for x in items if test x]]: the first test that raises
    ends it. *)
Fixpoint filter_comp (test : pyval -> result bool) (items : list pyval)
    : result (list pyval) :=
  match items with
  | [] => Ok []
  | x :: rest =>
      b <- test x ;;
      r <- filter_comp test rest ;;
      Ok (if b then x :: r else r)
  end.

Fixpoint for_each (body : pyval -> result unit) (items : list pyval)
    : result unit :=
  match items with
  | [] => Ok tt
  | x :: rest => _ <- body x ;; for_each body rest
  end.

(** *** Formatted strings *)

(** An f-string after its fields are evaluated: literal text and the values
    substituted, in order.  [Str v] is a field [{v}], [Fixed2 f] a field
    [{f:.2f}], [Msg e] the text of a caught exception. *)
Inductive piece :=
| Lit (s : string)
| Str (v : pyval)
| Fixed2 (f : spec_float)
| Msg (e : exn).

Definition fstring := list piece.

(** An int is written out in decimal only if it has at most 4300 digits
    ([sys.get_int_max_str_digits()]); beyond that the conversion raises
    [ValueError].  A float is always written out. *)
Definition max_str_digits : Z := 4300.

Definition printable (x : num) : bool :=
  match x with
  | NInt z => Z.abs z <? 10 ^ max_str_digits
  | NFloat _ => true
  end.

(** A field [{x}] for a number [x]. *)
Definition format_num (x : num) : result piece :=
  if printable x then Ok (Str (of_num x)) else Raise ValueError.

(** *** Words and slices *)

(** A string is its sequence of code points, all below 256.  The ones
    [str.split] and [str.isspace] take for whitespace: tab to carriage
    return, the four separators 28 to 31, the space, and 133 and 160. *)
Definition is_space (c : ascii) : bool :=
  let n := nat_of_ascii c in
  ((9 <=? n)%nat && (n <=? 13)%nat) || ((28 <=? n)%nat && (n <=? 32)%nat)
  || (n =? 133)%nat || (n =? 160)%nat.

(** [s.split()]: the maximal runs of characters that are not whitespace.
    [word] is the run being read. *)
Fixpoint split_from (word s : string) : list string :=
  match s with
  | EmptyString =>
      match word with EmptyString => [] | _ => [word] end
  | String c s' =>
      if is_space c
      then match word with
           | EmptyString => split_from EmptyString s'
           | _ => word :: split_from EmptyString s'
           end
      else split_from (word +:+ String c EmptyString) s'
  end.

Definition split_words (s : string) : list string :=
  split_from EmptyString s.

(** [v.split()] exists on strings only. *)
Definition call_split (v : pyval) : result (list pyval) :=
  match v with
  | VStr s => Ok (map VStr (split_words s))
  | _ => Raise AttributeError
  end.

(** [s[n:]] *)
Fixpoint drop_chars (n : nat) (s : string) : string :=
  match n, s with
  | O, _ => s
  | S n', String _ s' => drop_chars n' s'
  | S _, EmptyString => EmptyString
  end.

(** [lit + v[n:]] for a string literal [lit]: a slice of a list cannot be
    added to a string, and the rest cannot be sliced at all. *)
Definition concat_slice (lit : string) (v : pyval) (n : nat) : result string :=
  match v with
  | VStr s => Ok (lit +:+ drop_chars n s)
  | _ => Raise TypeError
  end.

(** ** Printing *)

(** A computation that prints: the lines written, then how it ended. *)
Definition io (A : Type) : Type := (list string * result A)%type.

(** [except (e1, ..., en)] catches [e]. *)
Definition catches (caught : list exn) (e : exn) : bool :=
  existsb (exn_eqb e) caught.

(** ** ex0: the processor hierarchy *)

Module DataProcessor.
(** The inherited default. *)
Definition format_output (result : string) : string := result.
End DataProcessor.

Module NumericProcessor.

Definition validate (data : pyval) : io bool :=
  match (items <- py_iter data ;; for_each getattr_is_integer items) with
  | Raise e =>
      if catches [AttributeError; TypeError] e
      then (["Not list of numbers"], Ok false)
      else ([], Raise e)
  | Ok _ => (["Validation: Numeric data verified"], Ok true)
  end.

(** The fields of the f-string are evaluated and written out left to
    right: [len(data)], [sum(data)], then [sum(data) / len(data)].  A
    length is below [2 ^ 63] and is always written out; the sum is written
    out before the division is evaluated. *)
Definition process (data : pyval) : result fstring :=
  n <- py_len data ;;
  s <- (items <- py_iter data ;; py_sum items) ;;
  sum_field <- format_num s ;;
  s' <- (items <- py_iter data ;; py_sum items) ;;
  n' <- py_len data ;;
  avg <- num_truediv s' n' ;;
  Ok [Lit "Processed "; Str (VInt n); Lit " numeric values , sum=";
      sum_field; Lit ", avg="; Str (VFloat avg)].

Definition format_output := DataProcessor.format_output.

End NumericProcessor.

Module TextProcessor.

Definition validate (data : pyval) : io bool :=
  match call_capitalize data with
  | Raise e =>
      if catches [AttributeError; TypeError] e
      then (["Not a string"], Ok false)
      else ([], Raise e)
  | Ok _ => (["Validation: Text data verified"], Ok true)
  end.

(** The fields of the f-string: [len(data)], then [len(data.split())]. *)
Definition process (data : pyval) : result fstring :=
  n <- py_len data ;;
  words <- call_split data ;;
  Ok [Lit "Processed text: "; Str (VInt n); Lit ", ";
      Str (VInt (Z.of_nat (length words))); Lit " words"].

Definition format_output := DataProcessor.format_output.

End TextProcessor.

Module LogProcessor.

(** [or] evaluates its second operand only when the first is false; the
    final [return False] prints nothing. *)
Definition validate (data : pyval) : io bool :=
  match (found <- call_find_found data "ERROR" ;;
         if found then Ok true else call_find_found data "INFO") with
  | Raise e =>
      if catches [AttributeError; TypeError] e
      then (["Not a log entry"], Ok false)
      else ([], Raise e)
  | Ok true => (["Validation: Log entry verified"], Ok true)
  | Ok false => ([], Ok false)
  end.

(** [output] starts empty and is assigned in at most one branch. *)
Definition process (data : pyval) : result string :=
  is_error <- call_find_found data "ERROR" ;;
  if is_error
  then concat_slice "[ALERT] ERROR level detected: " data 7
  else
    is_info <- call_find_found data "INFO" ;;
    if is_info
    then concat_slice "[INFO] INFO level detected: " data 6
    else Ok "".

Definition format_output (result : string) : string :=
  "Overiden log:" +:+ result.

End LogProcessor.

Inductive processor := Numeric | Text | Log.

(** Dynamic dispatch of [processor.validate(data)]. *)
Definition validate (p : processor) (data : pyval) : io bool :=
  match p with
  | Numeric => NumericProcessor.validate data
  | Text => TextProcessor.validate data
  | Log => LogProcessor.validate data
  end.

(** ** ex1: the stream hierarchy *)

Inductive stream_class := Sensor | Transaction | Event.

Record DataStream := {
  class_of : stream_class;
  processed_count : Z;
  stream_id : string;
  type : string
}.

Definition add_processed (self : DataStream) (n : Z) : DataStream :=
  {| class_of := class_of self;
     processed_count := processed_count self + n;
     stream_id := stream_id self;
     type := type self |}.

(** [len(data_batch)] *)
Definition len (data_batch : list pyval) : Z := Z.of_nat (length data_batch).

Module SensorStream.

Definition init (stream_id : string) : DataStream :=
  {| class_of := Sensor; processed_count := 0;
     stream_id := stream_id; type := "Environmental Data" |}.

(** The body of the [try]. *)
Definition average (data_batch : list pyval) : result spec_float :=
  s <- py_sum data_batch ;; num_truediv s (len data_batch).

Definition invalid (self : DataStream) : fstring :=
  [Lit "["; Str (VStr (stream_id self)); Lit "] Invalid sensor data"].

Definition process_batch (self : DataStream) (data_batch : list pyval)
    : result fstring * DataStream :=
  match average data_batch with
  | Raise e =>
      if catches [TypeError; ZeroDivisionError] e
      then (Ok (invalid self), self)
      else (Raise e, self)
  | Ok avg =>
      let self' := add_processed self (len data_batch) in
      (Ok [Lit "["; Str (VStr (stream_id self')); Lit "] ";
           Str (VInt (len data_batch));
           Lit " readings processed, avg: "; Fixed2 avg],
       self')
  end.

Definition filter_data (self : DataStream) (data_batch : list pyval)
    (criteria : option string) : result (list pyval) :=
  match criteria with
  | None => Ok data_batch
  | Some c =>
      if String.eqb c "high"
      then filter_comp (fun data => py_gt data 30) data_batch
      else if String.eqb c "standard"
      then filter_comp (fun data => py_le data 30) data_batch
      else Ok data_batch
  end.

End SensorStream.

Module TransactionStream.

Definition init (stream_id : string) : DataStream :=
  {| class_of := Transaction; processed_count := 0;
     stream_id := stream_id; type := "Transaction Stream" |}.

Definition invalid (self : DataStream) : fstring :=
  [Lit "["; Str (VStr (stream_id self)); Lit "] Invalid transaction data"].

(** The count is incremented before the string returned is built, so it
    stays incremented when writing out [total] raises. *)
Definition process_batch (self : DataStream) (data_batch : list pyval)
    : result fstring * DataStream :=
  match py_sum data_batch with
  | Raise e =>
      if catches [TypeError] e
      then (Ok (invalid self), self)
      else (Raise e, self)
  | Ok total =>
      let self' := add_processed self (len data_batch) in
      (total_field <- format_num total ;;
       Ok [Lit "["; Str (VStr (stream_id self')); Lit "] ";
           Str (VInt (len data_batch));
           Lit " operations processed, net flow: "; total_field],
       self')
  end.

Definition filter_data (self : DataStream) (data_batch : list pyval)
    (criteria : option string) : result (list pyval) :=
  match criteria with
  | None => Ok data_batch
  | Some c =>
      if String.eqb c "positive"
      then filter_comp (fun data => py_ge data 0) data_batch
      else if String.eqb c "negative"
      then filter_comp (fun data => py_lt data 0) data_batch
      else Ok data_batch
  end.

End TransactionStream.

Module EventStream.

Definition init (stream_id : string) : DataStream :=
  {| class_of := Event; processed_count := 0;
     stream_id := stream_id; type := "Event Stream" |}.

(** [isinstance(event, str) and "error" in event] *)
Definition is_error (event : pyval) : result bool :=
  if isinstance_str event then py_in "error" event else Ok false.

(** The body of the [try]: the length, and the sum of one [1] per
    matching event. *)
Definition count_errors (data_batch : list pyval) : result (Z * num) :=
  let total := len data_batch in
  matching <- filter_comp is_error data_batch ;;
  error_count <- py_sum (map (fun _ => VInt 1) matching) ;;
  Ok (total, error_count).

Definition invalid (self : DataStream) : fstring :=
  [Lit "["; Str (VStr (stream_id self)); Lit "] Invalid event data"].

Definition process_batch (self : DataStream) (data_batch : list pyval)
    : result fstring * DataStream :=
  match count_errors data_batch with
  | Raise e =>
      if catches [TypeError] e
      then (Ok (invalid self), self)
      else (Raise e, self)
  | Ok (total, error_count) =>
      let self' := add_processed self total in
      (Ok [Lit "["; Str (VStr (stream_id self')); Lit "] ";
           Str (VInt total); Lit " events processed, ";
           Str (of_num error_count); Lit " error(s)"],
       self')
  end.

Definition filter_data (self : DataStream) (data_batch : list pyval)
    (criteria : option string) : result (list pyval) :=
  match criteria with
  | None => Ok data_batch
  | Some c =>
      if String.eqb c "error"
      then filter_comp (fun data => py_in "error" data) data_batch
      else if String.eqb c "info"
      then filter_comp
             (fun data => b <- py_in "error" data ;; Ok (negb b)) data_batch
      else Ok data_batch
  end.

End EventStream.

(** Dynamic dispatch on the class of [self]. *)
Definition process_batch (self : DataStream) (data_batch : list pyval)
    : result fstring * DataStream :=
  match class_of self with
  | Sensor => SensorStream.process_batch self data_batch
  | Transaction => TransactionStream.process_batch self data_batch
  | Event => EventStream.process_batch self data_batch
  end.

Definition filter_data (self : DataStream) (data_batch : list pyval)
    (criteria : option string) : result (list pyval) :=
  match class_of self with
  | Sensor => SensorStream.filter_data self data_batch criteria
  | Transaction => TransactionStream.filter_data self data_batch criteria
  | Event => EventStream.filter_data self data_batch criteria
  end.

(** Inherited unchanged by the three classes. *)
Definition get_stats (self : DataStream) : gmap string pyval :=
  <["stream_id" := VStr (stream_id self)]>
    (<["processed_count" := VInt (processed_count self)]> ∅).

Definition new_stream (c : stream_class) (stream_id : string) : DataStream :=
  match c with
  | Sensor => SensorStream.init stream_id
  | Transaction => TransactionStream.init stream_id
  | Event => EventStream.init stream_id
  end.

(** ** The orchestrator *)

(** Stream objects are shared: a [StreamProcessor] holds references, and
    the same object may occur in its list more than once. *)
Definition loc := nat.
Definition heap := loc -> DataStream.

Definition store (h : heap) (l : loc) (s : DataStream) : heap :=
  fun l' => if Nat.eqb l' l then s else h l'.

Module StreamProcessor.

(** What the body of the loop prints for one stream: the result, or the
    line of the [except Exception] clause. *)
Definition process_line (stream : DataStream) (r : result fstring)
    : fstring :=
  match r with
  | Ok result => result
  | Raise e =>
      [Lit "Processing error in "; Str (VStr (stream_id stream));
       Lit ": "; Msg e]
  end.

Fixpoint process_streams (streams : list loc)
    (data_map : gmap string (list pyval)) (h : heap)
    : heap * list fstring :=
  match streams with
  | [] => (h, [])
  | l :: rest =>
      let stream := h l in
      let batch := default [] (data_map !! stream_id stream) in
      let '(r, stream') := process_batch stream batch in
      let '(h', out) := process_streams rest data_map (store h l stream') in
      (h', process_line stream' r :: out)
  end.

Definition filter_line (stream : DataStream) (r : result (list pyval))
    : fstring :=
  match r with
  | Ok filtered =>
      [Str (VStr (stream_id stream)); Lit ": "; Str (VInt (len filtered));
       Lit " filtered item(s)"]
  | Raise e =>
      [Lit "Filtering error in "; Str (VStr (stream_id stream));
       Lit ": "; Msg e]
  end.

Fixpoint filter_streams (streams : list loc)
    (data_map : gmap string (list pyval))
    (criteria_map : gmap string string) (h : heap) : list fstring :=
  match streams with
  | [] => []
  | l :: rest =>
      let stream := h l in
      let batch := default [] (data_map !! stream_id stream) in
      let criteria := criteria_map !! stream_id stream in
      filter_line stream (filter_data stream batch criteria)
        :: filter_streams rest data_map criteria_map h
  end.

End StreamProcessor.

(** ** Sequences of method calls on one stream *)

Inductive call :=
| ProcessBatch (data_batch : list pyval)
| FilterData (data_batch : list pyval) (criteria : option string)
| GetStats.

(** The object after a call.  Only [process_batch] assigns to an attribute
    of [self]. *)
Definition perform (self : DataStream) (c : call) : DataStream :=
  match c with
  | ProcessBatch data_batch => snd (process_batch self data_batch)
  | FilterData _ _ => self
  | GetStats => self
  end.

Definition run (self : DataStream) (calls : list call) : DataStream :=
  fold_left perform calls self.

(** The aggregation in the [try] of [process_batch] completes. *)
Definition is_ok {A} (r : result A) : bool :=
  match r with Ok _ => true | Raise _ => false end.

Definition aggregated (c : stream_class) (data_batch : list pyval) : bool :=
  match c with
  | Sensor => is_ok (SensorStream.average data_batch)
  | Transaction => is_ok (py_sum data_batch)
  | Event => is_ok (EventStream.count_errors data_batch)
  end.

Definition invalid (self : DataStream) : fstring :=
  match class_of self with
  | Sensor => SensorStream.invalid self
  | Transaction => TransactionStream.invalid self
  | Event => EventStream.invalid self
  end.

(** The items of the batches whose aggregation completes, over a sequence
    of calls. *)
Definition items_of (c : stream_class) (k : call) : Z :=
  match k with
  | ProcessBatch data_batch =>
      if aggregated c data_batch then len data_batch else 0
  | _ => 0
  end.

Fixpoint items_aggregated (c : stream_class) (calls : list call) : Z :=
  match calls with
  | [] => 0
  | k :: rest => items_of c k + items_aggregated c rest
  end.

(** ** Float literals of the demo data *)

Definition float_lit (num den : Z) : spec_float :=
  SFdiv prec emax (binary_normalize prec emax num 0 false)
                  (binary_normalize prec emax den 0 false).

(** [22.5] and [21.8] *)
Definition f22_5 : spec_float := Eval vm_compute in float_lit 225 10.
Definition f21_8 : spec_float := Eval vm_compute in float_lit 218 10.

(** ** Vocabulary of the properties *)

Fixpoint Zsum (zs : list Z) : Z :=
  match zs with
  | [] => 0
  | z :: rest => z + Zsum rest
  end.

(** [t] occurs in [s]. *)
Definition substring_of (t s : string) : Prop :=
  exists pre post, s = pre +:+ t +:+ post.

(** A string that contains "error". *)
Definition error_event (v : pyval) : bool :=
  match v with
  | VStr s => str_contains "error" s
  | _ => false
  end.

(** The criteria names each class tests for. *)
Definition recognized (c : stream_class) : list string :=
  match c with
  | Sensor => ["high"; "standard"]
  | Transaction => ["positive"; "negative"]
  | Event => ["error"; "info"]
  end.

(** A number strictly above, or at most, an int bound. *)
Definition above (z : Z) (v : pyval) : bool :=
  match as_num v with
  | Some x => match num_cmp_int x z with Some Gt => true | _ => false end
  | None => false
  end.

Definition at_most (z : Z) (v : pyval) : bool :=
  match as_num v with
  | Some x =>
      match num_cmp_int x z with Some Lt | Some Eq => true | _ => false end
  | None => false
  end.

(** What [in] can be applied to. *)
Definition is_container (v : pyval) : bool :=
  match v with VStr _ | VList _ => true | _ => false end.

(** The exact value of a number, when it has one. *)
Inductive value :=
| MinusInfinity
| Finite (q : Q)
| PlusInfinity
| NotANumber.

Definition float_value (f : spec_float) : value :=
  match f with
  | S754_nan => NotANumber
  | S754_infinity s => if s then MinusInfinity else PlusInfinity
  | S754_zero _ => Finite 0
  | S754_finite s m e =>
      Finite (inject_Z (cond_Zopp s (Zpos m)) * Qpower 2 e)%Q
  end.

Definition num_value (x : num) : value :=
  match x with
  | NInt z => Finite (inject_Z z)
  | NFloat f => float_value f
  end.

(** [bound < value] and [value <= bound]; both fail on a NaN. *)
Definition value_above (z : Z) (v : value) : Prop :=
  match v with
  | Finite q => (inject_Z z < q)%Q
  | PlusInfinity => True
  | _ => False
  end.

Definition value_at_most (z : Z) (v : value) : Prop :=
  match v with
  | Finite q => (q <= inject_Z z)%Q
  | MinusInfinity => True
  | _ => False
  end.

(** The line each [validate] prints when it catches an error. *)
Definition diagnostic (p : processor) : string :=
  match p with
  | Numeric => "Not list of numbers"
  | Text => "Not a string"
  | Log => "Not a log entry"
  end.

(** A store for the examples: a sensor stream at reference 0, an event
    stream everywhere else. *)
Definition demo_heap : heap :=
  fun l => if Nat.eqb l 0 then SensorStream.init "SENSOR_001"
           else EventStream.init "EVENT_001".

(** ** Vocabulary of the further properties *)

(** [value < bound] and [bound <= value]; both fail on a NaN. *)
Definition value_below (z : Z) (v : value) : Prop :=
  match v with
  | Finite q => (q < inject_Z z)%Q
  | MinusInfinity => True
  | _ => False
  end.

Definition value_at_least (z : Z) (v : value) : Prop :=
  match v with
  | Finite q => (inject_Z z <= q)%Q
  | PlusInfinity => True
  | _ => False
  end.

Definition at_least (z : Z) (v : pyval) : bool :=
  match as_num v with
  | Some x =>
      match num_cmp_int x z with Some Gt | Some Eq => true | _ => false end
  | None => false
  end.

Definition below (z : Z) (v : pyval) : bool :=
  match as_num v with
  | Some x => match num_cmp_int x z with Some Lt => true | _ => false end
  | None => false
  end.

(** A float that is not a number. *)
Definition is_nan (v : pyval) : bool :=
  match v with VFloat S754_nan => true | _ => false end.

(** What the event filters test, on a string or a list. *)
Definition has_error (v : pyval) : bool :=
  match v with
  | VStr s => str_contains "error" s
  | VList l =>
      existsb (fun x => match x with
                        | VStr s => String.eqb "error" s
                        | _ => false
                        end) l
  | _ => false
  end.

Definition no_space (w : string) : Prop :=
  forall c, In c (list_ascii_of_string w) -> is_space c = false.

(** How often a reference occurs in the list of a [StreamProcessor]. *)
Fixpoint occurrences (l : loc) (streams : list loc) : Z :=
  match streams with
  | [] => 0
  | l' :: rest => (if Nat.eqb l' l then 1 else 0) + occurrences l rest
  end.

(** The batch [process_streams] and [filter_streams] look up for a stream,
    and the items its [process_batch] adds to the count. *)
Definition batch_of (data_map : gmap string (list pyval)) (s : DataStream)
    : list pyval :=
  default [] (data_map !! stream_id s).

Definition items_for (data_map : gmap string (list pyval)) (s : DataStream)
    : Z :=
  if aggregated (class_of s) (batch_of data_map s)
  then len (batch_of data_map s) else 0.

(** The report of a batch with nothing in it. *)
Definition empty_report (s : DataStream) : fstring :=
  match class_of s with
  | Sensor => SensorStream.invalid s
  | Transaction =>
      [Lit "["; Str (VStr (stream_id s)); Lit "] "; Str (VInt 0);
       Lit " operations processed, net flow: "; Str (VInt 0)]
  | Event =>
      [Lit "["; Str (VStr (stream_id s)); Lit "] "; Str (VInt 0);
       Lit " events processed, "; Str (VInt 0); Lit " error(s)"]
  end.

(** What [NumericProcessor.validate] lets through, of the values modelled:
    a list of floats, and the string with no character. *)
Definition accepts_numeric (data : pyval) : bool :=
  match data with
  | VList l => forallb is_float l
  | VStr EmptyString => true
  | _ => false
  end.

(** [" ".join(words)] *)
Fixpoint join_words (words : list string) : string :=
  match words with
  | [] => EmptyString
  | [w] => w
  | w :: rest => w +:+ String " " (join_words rest)
  end.

(** [sys.maxsize] on a 64-bit interpreter: no list is longer. *)
Definition max_size : Z := 2 ^ 63 - 1.

(** The string [process_batch] returns can be written out: always, but for
    a transaction stream whose net flow is an int of too many digits. *)
Definition report_written (c : stream_class) (data_batch : list pyval)
    : bool :=
  match c with
  | Transaction =>
      match py_sum data_batch with
      | Ok total => printable total
      | Raise _ => true
      end
  | _ => true
  end.

(** * Properties *)

(** ** Exceptions *)

Lemma bind_ok {A B} (r : result A) (k : A -> result B) (b : B) :
  bind r k = Ok b -> exists a, r = Ok a /\ k a = Ok b.
Proof. destruct r as [a|e]; simpl; [eauto | discriminate]. Qed.

Lemma bind_raise {A B} (r : result A) (k : A -> result B) (e : exn) :
  bind r k = Raise e -> r = Raise e \/ exists a, r = Ok a /\ k a = Raise e.
Proof. destruct r as [a|e']; simpl; [eauto | intros [= ->]; auto]. Qed.

(** ** Sums *)

Lemma float_of_int_cases (z : Z) :
  (exists f, float_of_int z = Ok f) \/ float_of_int z = Raise OverflowError.
Proof.
  unfold float_of_int.
  destruct (binary_normalize prec emax z 0 false); eauto.
Qed.

Lemma num_add_cases (a b : num) :
  (exists c, num_add a b = Ok c) \/ num_add a b = Raise OverflowError.
Proof.
  destruct a as [x|f], b as [y|g]; simpl; eauto.
  - destruct (float_of_int_cases x) as [[f' ->] | ->]; simpl; eauto.
  - destruct (float_of_int_cases y) as [[g' ->] | ->]; simpl; eauto.
Qed.

Lemma sum_raise (items : list pyval) (e : exn) :
  fold_left sum_step items (Raise e) = Raise e.
Proof. induction items as [|v items IH]; simpl; auto. Qed.

(** The running total either survives, or the sum stops at an item that is
    not a number, or at a conversion that overflows. *)
Lemma sum_cases (items : list pyval) (acc : num) :
  (exists s, fold_left sum_step items (Ok acc) = Ok s) \/
  fold_left sum_step items (Ok acc) = Raise TypeError \/
  fold_left sum_step items (Ok acc) = Raise OverflowError.
Proof.
  revert acc. induction items as [|v items IH]; intros acc; simpl.
  - eauto.
  - destruct (as_num v) as [x|].
    + destruct (num_add_cases acc x) as [[c ->] | ->].
      * apply IH.
      * rewrite sum_raise. auto.
    + rewrite sum_raise. auto.
Qed.

Lemma py_sum_cases (items : list pyval) :
  (exists s, py_sum items = Ok s) \/
  py_sum items = Raise TypeError \/ py_sum items = Raise OverflowError.
Proof. apply sum_cases. Qed.

(** A sum that is computed saw numbers only. *)
Lemma sum_ok_numeric (items : list pyval) (acc s : num) :
  fold_left sum_step items (Ok acc) = Ok s ->
  Forall (fun v => is_numeric v = true) items.
Proof.
  revert acc. induction items as [|v items IH]; intros acc H; simpl in H.
  - constructor.
  - unfold is_numeric. destruct (as_num v) as [x|] eqn:Hv.
    + constructor; [now rewrite Hv|].
      destruct (num_add acc x) as [c|e]; [eauto|].
      rewrite sum_raise in H. discriminate.
    + rewrite sum_raise in H. discriminate.
Qed.

(** Numbers only: no [TypeError]. *)
Lemma sum_numeric_no_type_error (items : list pyval) (acc : num) :
  Forall (fun v => is_numeric v = true) items ->
  fold_left sum_step items (Ok acc) <> Raise TypeError.
Proof.
  intros H. revert acc. induction H as [|v items Hv _ IH]; intros acc; simpl.
  - discriminate.
  - unfold is_numeric in Hv. destruct (as_num v) as [x|]; [|discriminate].
    destruct (num_add_cases acc x) as [[c ->] | ->].
    + apply IH.
    + rewrite sum_raise. discriminate.
Qed.

(** On ints the sum is exact. *)
Lemma sum_ints (zs : list Z) (a : Z) :
  fold_left sum_step (map VInt zs) (Ok (NInt a)) = Ok (NInt (a + Zsum zs)).
Proof.
  revert a. induction zs as [|z zs IH]; intros a; simpl.
  - now rewrite Z.add_0_r.
  - rewrite IH. now rewrite Z.add_assoc.
Qed.

Lemma py_sum_ints (zs : list Z) : py_sum (map VInt zs) = Ok (NInt (Zsum zs)).
Proof. unfold py_sum. now rewrite sum_ints. Qed.

Lemma sum_ones {A} (l : list A) (a : Z) :
  fold_left sum_step (map (fun _ => VInt 1) l) (Ok (NInt a))
  = Ok (NInt (a + Z.of_nat (length l))).
Proof.
  revert a. induction l as [|x l IH]; intros a.
  - simpl. now rewrite Z.add_0_r.
  - cbn [map fold_left length]. simpl sum_step. rewrite IH. f_equal. f_equal. lia.
Qed.

(** ** Division by a length *)

Lemma int_true_div_cases (a n : Z) :
  n <> 0 ->
  (exists q, int_true_div a n = Ok q) \/
  int_true_div a n = Raise OverflowError.
Proof.
  intros Hn. unfold int_true_div.
  destruct n as [|n|n]; [congruence | |]; destruct a as [|a|a]; eauto;
    match goal with
    | |- context [SFdiv ?p ?e ?x ?y] => destruct (SFdiv p e x y); eauto
    end.
Qed.

Lemma num_truediv_cases (s : num) (n : Z) :
  n <> 0 ->
  (exists q, num_truediv s n = Ok q) \/
  num_truediv s n = Raise OverflowError.
Proof.
  intros Hn. destruct s as [x|f]; simpl.
  - now apply int_true_div_cases.
  - destruct (Z.eqb_spec n 0) as [|_]; [congruence|].
    destruct (float_of_int_cases n) as [[g ->] | ->]; simpl; eauto.
Qed.

Lemma num_truediv_zero (s : num) : num_truediv s 0 = Raise ZeroDivisionError.
Proof. destruct s as [x|f]; simpl; [now destruct x | reflexivity]. Qed.

Lemma len_nonzero (data_batch : list pyval) :
  data_batch <> [] -> len data_batch <> 0.
Proof. destruct data_batch; [congruence | unfold len; simpl; lia]. Qed.

Lemma len_nonneg (data_batch : list pyval) : 0 <= len data_batch.
Proof. unfold len. lia. Qed.

(** ** Substrings *)

Lemma starts_with_spec (t s : string) :
  starts_with t s = true <-> exists post, s = t +:+ post.
Proof.
  revert s. induction t as [|a t IH]; intros s; simpl.
  - split; [intros _; now exists s | reflexivity].
  - destruct s as [|b s].
    + split; [discriminate | intros [post H]; discriminate].
    + rewrite andb_true_iff, IH. split.
      * intros [Hab [post ->]]. apply Ascii.eqb_eq in Hab. subst. now exists post.
      * intros [post [= -> ->]]. split; [apply Ascii.eqb_refl | now exists post].
Qed.

Lemma str_contains_spec (t s : string) :
  str_contains t s = true <-> substring_of t s.
Proof.
  unfold substring_of. induction s as [|b s IH].
  - cbn [str_contains]. rewrite orb_false_r, starts_with_spec. split.
    + intros [post H]. now exists EmptyString, post.
    + intros [pre [post H]]. destruct pre; [now exists post | discriminate].
  - cbn [str_contains]. rewrite orb_true_iff, starts_with_spec, IH. split.
    + intros [[post H] | [pre [post H]]].
      * now exists EmptyString, post.
      * exists (String b pre), post. simpl. now rewrite H.
    + intros [pre [post H]]. destruct pre as [|c pre].
      * left. now exists post.
      * right. injection H as _ H. now exists pre, post.
Qed.

(** ** Comprehensions *)

(** When no test raises, the comprehension is a filter. *)
Lemma filter_comp_total (test : pyval -> result bool) (f : pyval -> bool)
    (items : list pyval) :
  Forall (fun x => test x = Ok (f x)) items ->
  filter_comp test items = Ok (List.filter f items).
Proof.
  induction 1 as [|x items Hx _ IH]; simpl.
  - reflexivity.
  - rewrite Hx, IH. reflexivity.
Qed.

(** When every test returns or raises [e], and one raises, so does the
    comprehension. *)
Lemma filter_comp_raise (test : pyval -> result bool) (e : exn)
    (items : list pyval) :
  Forall (fun x => (exists b, test x = Ok b) \/ test x = Raise e) items ->
  Exists (fun x => test x = Raise e) items ->
  filter_comp test items = Raise e.
Proof.
  induction 1 as [|x items Hx Hall IH]; intros Hex.
  - inversion Hex.
  - simpl. destruct Hx as [[b Hb] | Hr].
    + rewrite Hb. simpl. inversion Hex as [? ? H | ? ? H]; subst.
      * congruence.
      * now rewrite (IH H).
    + now rewrite Hr.
Qed.

Lemma cmp_with_cases (test : option comparison -> bool) (v : pyval) (z : Z) :
  (exists b, cmp_with test v z = Ok b) \/ cmp_with test v z = Raise TypeError.
Proof. unfold cmp_with. destruct (as_num v); eauto. Qed.

Lemma cmp_with_non_numeric (test : option comparison -> bool) (v : pyval)
    (z : Z) :
  is_numeric v = false -> cmp_with test v z = Raise TypeError.
Proof. unfold cmp_with, is_numeric. now destruct (as_num v). Qed.

Lemma py_gt_above (v : pyval) :
  is_numeric v = true -> py_gt v 30 = Ok (above 30 v).
Proof.
  unfold py_gt, cmp_with, above, is_numeric.
  destruct (as_num v); [reflexivity | discriminate].
Qed.

Lemma py_le_at_most (v : pyval) :
  is_numeric v = true -> py_le v 30 = Ok (at_most 30 v).
Proof.
  unfold py_le, cmp_with, at_most, is_numeric.
  destruct (as_num v); [reflexivity | discriminate].
Qed.

Lemma py_in_cases (t : string) (v : pyval) :
  (exists b, py_in t v = Ok b) \/ py_in t v = Raise TypeError.
Proof. destruct v; simpl; eauto. Qed.

Lemma py_in_not_container (t : string) (v : pyval) :
  is_container v = false -> py_in t v = Raise TypeError.
Proof. destruct v; simpl; intros; (reflexivity || discriminate). Qed.

Lemma is_error_total (event : pyval) :
  EventStream.is_error event = Ok (error_event event).
Proof. now destruct event. Qed.

Lemma count_errors_spec (data_batch : list pyval) :
  EventStream.count_errors data_batch
  = Ok (len data_batch,
        NInt (Z.of_nat (length (List.filter error_event data_batch)))).
Proof.
  unfold EventStream.count_errors.
  rewrite (filter_comp_total _ error_event).
  - simpl. unfold py_sum. rewrite sum_ones. reflexivity.
  - apply Forall_forall. intros x _. apply is_error_total.
Qed.

(** ** [process_batch] *)

Lemma average_raise (data_batch : list pyval) (e : exn) :
  SensorStream.average data_batch = Raise e ->
  e = TypeError \/ e = ZeroDivisionError \/ e = OverflowError.
Proof.
  unfold SensorStream.average. intros H.
  destruct (py_sum_cases data_batch) as [[s Hs] | [Hs | Hs]];
    rewrite Hs in H; simpl in H; try (injection H as <-; auto; fail).
  destruct (Z.eq_dec (len data_batch) 0) as [Hn | Hn].
  - rewrite Hn, num_truediv_zero in H. injection H as <-. auto.
  - destruct (num_truediv_cases s _ Hn) as [[q Hq] | Hq];
      rewrite Hq in H; [discriminate | injection H as <-; auto].
Qed.

Lemma average_empty : SensorStream.average [] = Raise ZeroDivisionError.
Proof. reflexivity. Qed.

(** A sum stops at the first thing that is not a number, unless a
    conversion overflowed before. *)
Lemma sum_non_numeric (items : list pyval) (acc : num) :
  Exists (fun v => is_numeric v = false) items ->
  fold_left sum_step items (Ok acc) = Raise TypeError \/
  fold_left sum_step items (Ok acc) = Raise OverflowError.
Proof.
  intros H. destruct (sum_cases items acc) as [[s Hs] | Hs]; [|exact Hs].
  apply sum_ok_numeric in Hs. exfalso.
  apply Exists_exists in H as [v [Hin Hv]].
  rewrite Forall_forall in Hs. rewrite (Hs v Hin) in Hv. discriminate.
Qed.

Lemma sensor_success (self : DataStream) (data_batch : list pyval)
    (avg : spec_float) :
  SensorStream.average data_batch = Ok avg ->
  SensorStream.process_batch self data_batch
  = (Ok [Lit "["; Str (VStr (stream_id self)); Lit "] ";
         Str (VInt (len data_batch));
         Lit " readings processed, avg: "; Fixed2 avg],
     add_processed self (len data_batch)).
Proof. unfold SensorStream.process_batch. now intros ->. Qed.

Lemma sensor_failure (self : DataStream) (data_batch : list pyval) (e : exn) :
  SensorStream.average data_batch = Raise e ->
  SensorStream.process_batch self data_batch
  = if catches [TypeError; ZeroDivisionError] e
    then (Ok (SensorStream.invalid self), self)
    else (Raise e, self).
Proof. unfold SensorStream.process_batch. now intros ->. Qed.

Lemma transaction_success (self : DataStream) (data_batch : list pyval)
    (total : num) :
  py_sum data_batch = Ok total ->
  printable total = true ->
  TransactionStream.process_batch self data_batch
  = (Ok [Lit "["; Str (VStr (stream_id self)); Lit "] ";
         Str (VInt (len data_batch));
         Lit " operations processed, net flow: "; Str (of_num total)],
     add_processed self (len data_batch)).
Proof.
  unfold TransactionStream.process_batch, format_num. now intros -> ->.
Qed.

Lemma transaction_unwritten (self : DataStream) (data_batch : list pyval)
    (total : num) :
  py_sum data_batch = Ok total ->
  printable total = false ->
  TransactionStream.process_batch self data_batch
  = (Raise ValueError, add_processed self (len data_batch)).
Proof.
  unfold TransactionStream.process_batch, format_num. now intros -> ->.
Qed.

Lemma event_success (self : DataStream) (data_batch : list pyval) :
  EventStream.process_batch self data_batch
  = (Ok [Lit "["; Str (VStr (stream_id self)); Lit "] ";
         Str (VInt (len data_batch)); Lit " events processed, ";
         Str (VInt (Z.of_nat (length (List.filter error_event data_batch))));
         Lit " error(s)"],
     add_processed self (len data_batch)).
Proof.
  unfold EventStream.process_batch. now rewrite count_errors_spec.
Qed.

(** When the aggregation completes, the count grows by the size of the
    batch, and the report, once written out, is not the failure string. *)
Lemma process_batch_aggregated (self : DataStream) (data_batch : list pyval) :
  aggregated (class_of self) data_batch = true ->
  report_written (class_of self) data_batch = true ->
  exists report,
    process_batch self data_batch
    = (Ok report, add_processed self (len data_batch))
    /\ report <> invalid self.
Proof.
  unfold aggregated, report_written, process_batch, invalid.
  destruct (class_of self); intros H Hw.
  - destruct (SensorStream.average data_batch) as [avg|e] eqn:Ha;
      [|discriminate].
    rewrite (sensor_success _ _ _ Ha). eexists. split; [reflexivity|].
    discriminate.
  - destruct (py_sum data_batch) as [total|e] eqn:Hs; [|discriminate].
    rewrite (transaction_success _ _ _ Hs Hw). eexists.
    split; [reflexivity|]. discriminate.
  - rewrite event_success. eexists. split; [reflexivity|]. discriminate.
Qed.

(** When the report cannot be written out, the count has grown all the
    same. *)
Lemma process_batch_unwritten (self : DataStream) (data_batch : list pyval) :
  report_written (class_of self) data_batch = false ->
  aggregated (class_of self) data_batch = true
  /\ process_batch self data_batch
     = (Raise ValueError, add_processed self (len data_batch)).
Proof.
  unfold aggregated, report_written, process_batch.
  destruct (class_of self); try discriminate.
  destruct (py_sum data_batch) as [total|e] eqn:Hs; [|discriminate].
  intros Hw. split; [reflexivity|].
  exact (transaction_unwritten _ _ total Hs Hw).
Qed.

(** When it does not, the object is untouched, and the failure string is
    returned unless the error is one the [except] clause does not name. *)
Lemma process_batch_not_aggregated (self : DataStream)
    (data_batch : list pyval) :
  aggregated (class_of self) data_batch = false ->
  process_batch self data_batch = (Ok (invalid self), self) \/
  process_batch self data_batch = (Raise OverflowError, self).
Proof.
  unfold aggregated, process_batch, invalid.
  destruct (class_of self); intros H.
  - destruct (SensorStream.average data_batch) as [avg|e] eqn:Ha;
      [discriminate|].
    rewrite (sensor_failure _ _ _ Ha).
    destruct (average_raise _ _ Ha) as [-> | [-> | ->]]; simpl; auto.
  - unfold TransactionStream.process_batch.
    destruct (py_sum_cases data_batch) as [[s Hs] | [Hs | Hs]];
      rewrite Hs in *; simpl in *; auto; discriminate.
  - rewrite count_errors_spec in H. discriminate.
Qed.

(** The object after the call, whether it returned or raised. *)
Lemma process_batch_state (self : DataStream) (data_batch : list pyval) :
  snd (process_batch self data_batch) = self
  /\ aggregated (class_of self) data_batch = false
  \/ snd (process_batch self data_batch)
     = add_processed self (len data_batch)
     /\ aggregated (class_of self) data_batch = true.
Proof.
  destruct (aggregated (class_of self) data_batch) eqn:H.
  - right. split; [|reflexivity].
    destruct (report_written (class_of self) data_batch) eqn:Hw.
    + now destruct (process_batch_aggregated _ _ H Hw) as [r [-> _]].
    + now destruct (process_batch_unwritten _ _ Hw) as [_ ->].
  - left. split; [|reflexivity].
    now destruct (process_batch_not_aggregated _ _ H) as [-> | ->].
Qed.

Lemma process_batch_count (self : DataStream) (data_batch : list pyval) :
  processed_count (snd (process_batch self data_batch))
  = processed_count self
    + (if aggregated (class_of self) data_batch then len data_batch else 0).
Proof.
  destruct (process_batch_state self data_batch) as [[-> ->] | [-> ->]];
    simpl; lia.
Qed.

Lemma process_batch_class (self : DataStream) (data_batch : list pyval) :
  class_of (snd (process_batch self data_batch)) = class_of self.
Proof.
  now destruct (process_batch_state self data_batch) as [[-> _] | [-> _]].
Qed.

Lemma process_batch_id (self : DataStream) (data_batch : list pyval) :
  stream_id (snd (process_batch self data_batch)) = stream_id self.
Proof.
  now destruct (process_batch_state self data_batch) as [[-> _] | [-> _]].
Qed.

(** ** Quotients that are too large for a float *)

Lemma digits2_pos_bounds (p : positive) :
  2 ^ (Zpos (digits2_pos p) - 1) <= Zpos p < 2 ^ Zpos (digits2_pos p).
Proof.
  induction p as [p IH | p IH |]; cbn [digits2_pos].
  - rewrite Pos2Z.inj_succ. change (Z.pos p~1) with (2 * Z.pos p + 1).
    replace (Z.succ (Z.pos (digits2_pos p)) - 1)
      with (Z.pos (digits2_pos p)) by lia.
    rewrite Z.pow_succ_r by lia.
    assert (Hd : 2 ^ Z.pos (digits2_pos p)
                 = 2 * 2 ^ (Z.pos (digits2_pos p) - 1))
      by (rewrite <- Z.pow_succ_r by lia; f_equal; lia).
    lia.
  - rewrite Pos2Z.inj_succ. change (Z.pos p~0) with (2 * Z.pos p).
    replace (Z.succ (Z.pos (digits2_pos p)) - 1)
      with (Z.pos (digits2_pos p)) by lia.
    rewrite Z.pow_succ_r by lia.
    assert (Hd : 2 ^ Z.pos (digits2_pos p)
                 = 2 * 2 ^ (Z.pos (digits2_pos p) - 1))
      by (rewrite <- Z.pow_succ_r by lia; f_equal; lia).
    lia.
  - simpl. lia.
Qed.

Lemma shr_1_m (mrs : shr_record) :
  0 <= shr_m mrs -> shr_m (shr_1 mrs) = shr_m mrs / 2.
Proof.
  destruct mrs as [m r s]. cbn [shr_m]. intros H.
  destruct m as [|[p|p|]|p]; cbn [shr_1 shr_m]; try lia; try reflexivity.
  - change (Z.pos p~1) with (2 * Z.pos p + 1).
    apply Z.div_unique with 1; lia.
  - change (Z.pos p~0) with (2 * Z.pos p).
    apply Z.div_unique with 0; lia.
Qed.

Lemma iter_pos_shr_m (p : positive) (mrs : shr_record) :
  0 <= shr_m mrs ->
  shr_m (SpecFloat.iter_pos shr_1 p mrs) = shr_m mrs / 2 ^ Zpos p.
Proof.
  revert mrs. induction p as [p IH | p IH |]; intros mrs H; cbn [SpecFloat.iter_pos].
  - assert (H1 : 0 <= shr_m (shr_1 mrs))
      by (rewrite shr_1_m by lia; apply Z.div_pos; lia).
    assert (H2 : 0 <= shr_m (SpecFloat.iter_pos shr_1 p (shr_1 mrs)))
      by (rewrite IH by lia; apply Z.div_pos;
          [lia | apply Z.pow_pos_nonneg; lia]).
    rewrite IH, IH, shr_1_m by lia.
    rewrite !Z.div_div by (try lia; apply Z.pow_pos_nonneg; lia).
    f_equal. replace (Z.pos p~1) with (1 + Z.pos p + Z.pos p) by lia.
    rewrite !Z.pow_add_r by lia. lia.
  - assert (H2 : 0 <= shr_m (SpecFloat.iter_pos shr_1 p mrs))
      by (rewrite IH by lia; apply Z.div_pos;
          [lia | apply Z.pow_pos_nonneg; lia]).
    rewrite IH, IH by lia.
    rewrite !Z.div_div by (try lia; apply Z.pow_pos_nonneg; lia).
    f_equal. replace (Z.pos p~0) with (Z.pos p + Z.pos p) by lia.
    rewrite !Z.pow_add_r by lia. lia.
  - rewrite shr_1_m by lia. reflexivity.
Qed.

Lemma shr_record_of_loc_m (m : Z) (l : location) :
  shr_m (shr_record_of_loc m l) = m.
Proof. destruct l as [|[]]; reflexivity. Qed.

Lemma round_nearest_even_bounds (m : Z) (l : location) :
  m <= round_nearest_even m l <= m + 1.
Proof.
  unfold round_nearest_even. destruct l as [|[]]; try lia.
  destruct (Z.even m); lia.
Qed.

Lemma pow2_lt_exp (a b : Z) : 0 <= b -> 2 ^ a < 2 ^ b -> a < b.
Proof. intros Hb H. apply (Z.pow_lt_mono_r_iff 2); lia. Qed.

(** A mantissa of more than 1030 bits at exponent 0 rounds to an
    infinity. *)
Lemma binary_round_aux_overflow (sx : bool) (mx : Z) (lx : location) :
  2 ^ 1030 <= mx ->
  binary_round_aux prec emax sx mx 0 lx = S754_infinity sx.
Proof.
  intros Hmx.
  assert (H1030 : 0 < 2 ^ 1030) by (apply Z.pow_pos_nonneg; lia).
  destruct mx as [|p|p]; try lia.
  pose proof (digits2_pos_bounds p) as [HDl HDu].
  set (D := Z.pos (digits2_pos p)) in *.
  assert (HD : 1030 < D) by (apply pow2_lt_exp; [unfold D|]; lia).
  unfold binary_round_aux, shr_fexp, fexp, emin, prec, emax.
  cbn [Zdigits2]. fold D.
  rewrite (Z.max_l (D + 0 - 53)) by lia.
  destruct (D + 0 - 53 - 0) as [|p1|p1] eqn:Hk; try lia.
  cbn [shr].
  set (mrs' := SpecFloat.iter_pos shr_1 p1 (shr_record_of_loc (Z.pos p) lx)).
  assert (Ht : shr_m mrs' = Z.pos p / 2 ^ Z.pos p1).
  { unfold mrs'. rewrite iter_pos_shr_m; rewrite shr_record_of_loc_m; lia. }
  assert (Hsplit1 : 2 ^ (D - 1) = 2 ^ 52 * 2 ^ Z.pos p1)
    by (rewrite <- Z.pow_add_r by lia; f_equal; lia).
  assert (Hsplit2 : 2 ^ D = 2 ^ 53 * 2 ^ Z.pos p1)
    by (rewrite <- Z.pow_add_r by lia; f_equal; lia).
  assert (Hp1 : 0 < 2 ^ Z.pos p1) by (apply Z.pow_pos_nonneg; lia).
  assert (Htl : 2 ^ 52 <= shr_m mrs').
  { rewrite Ht. apply Z.div_le_lower_bound; lia. }
  assert (Htu : shr_m mrs' < 2 ^ 53).
  { rewrite Ht. apply Z.div_lt_upper_bound; lia. }
  pose proof (round_nearest_even_bounds (shr_m mrs') (loc_of_shr_record mrs'))
    as [Hrl Hru].
  set (m2 := round_nearest_even (shr_m mrs') (loc_of_shr_record mrs')) in *.
  assert (H52 : 0 < 2 ^ 52) by (apply Z.pow_pos_nonneg; lia).
  destruct m2 as [|p2|p2] eqn:Hm2; try lia.
  cbn [Zdigits2].
  pose proof (digits2_pos_bounds p2) as [HD2l HD2u].
  set (D2 := Z.pos (digits2_pos p2)) in *.
  assert (HD2a : 52 < D2) by (apply pow2_lt_exp; [unfold D2|]; lia).
  assert (HD2b : D2 - 1 < 54).
  { apply pow2_lt_exp; [lia|].
    replace (2 ^ 54) with (2 * 2 ^ 53) by reflexivity. lia. }
  rewrite (Z.max_l (D2 + (0 + Z.pos p1) - 53)) by lia.
  destruct (D2 + (0 + Z.pos p1) - 53 - (0 + Z.pos p1)) as [|p3|p3] eqn:Hk2;
    try lia.
  - cbn [shr shr_record_of_loc shr_m].
    destruct (Z.leb_spec (0 + Z.pos p1) (1024 - 53)); [lia | reflexivity].
  - assert (p3 = 1%positive) by lia. subst p3.
    cbn [shr SpecFloat.iter_pos].
    assert (Hs : shr_m (shr_1 (shr_record_of_loc (Z.pos p2) loc_Exact))
                 = Z.pos p2 / 2)
      by (rewrite shr_1_m; rewrite shr_record_of_loc_m; lia).
    assert (0 < Z.pos p2 / 2).
    { apply Z.div_str_pos. change (2 ^ 52) with (2 * 2 ^ 51) in Hrl. lia. }
    rewrite Hs. destruct (Z.pos p2 / 2) as [|p4|p4]; try lia.
    destruct (Z.leb_spec (0 + Z.pos p1 + 1) (1024 - 53));
      [lia | reflexivity].
Qed.

Lemma SFdiv_overflow (sx sy : bool) (mx my : positive) :
  2 ^ 1100 <= Z.pos mx -> Z.pos my < 2 ^ 64 ->
  SFdiv prec emax (S754_finite sx mx 0) (S754_finite sy my 0)
  = S754_infinity (xorb sx sy).
Proof.
  intros Hx Hy.
  pose proof (digits2_pos_bounds mx) as [_ HDx].
  pose proof (digits2_pos_bounds my) as [HDy _].
  set (d1 := Z.pos (digits2_pos mx)) in *.
  set (d2 := Z.pos (digits2_pos my)) in *.
  assert (Hd1 : 1100 < d1) by (apply pow2_lt_exp; [unfold d1|]; lia).
  assert (Hd2 : d2 - 1 < 64) by (apply pow2_lt_exp; lia).
  unfold SFdiv, SFdiv_core_binary, fexp, emin, prec, emax.
  cbn [Zdigits2]. fold d1 d2.
  replace (Z.min (Z.max (d1 + 0 - (d2 + 0) - 53) (3 - 1024 - 53)) (0 - 0))
    with 0 by lia.
  change (0 - 0 - 0) with 0. cbv beta iota.
  destruct (Z.div_eucl (Z.pos mx) (Z.pos my)) as [q r] eqn:Hqr.
  assert (Hq : q = Z.pos mx / Z.pos my) by (unfold Z.div; now rewrite Hqr).
  apply binary_round_aux_overflow.
  rewrite Hq. apply Z.div_le_lower_bound; [lia|].
  assert (Hmul : Z.pos my * 2 ^ 1030 <= 2 ^ 64 * 2 ^ 1030).
  { apply Z.mul_le_mono_nonneg_r; [|lia]. apply Z.pow_nonneg. lia. }
  rewrite <- Z.pow_add_r in Hmul by lia.
  assert (2 ^ (64 + 1030) <= 2 ^ 1100) by (apply Z.pow_le_mono_r; lia).
  lia.
Qed.

(** The quotient of two ints is a float only if the dividend is within
    1100 bits, when the divisor is a length. *)
Lemma int_true_div_dividend (a n : Z) (avg : spec_float) :
  0 < n <= max_size ->
  int_true_div a n = Ok avg ->
  Z.abs a < 2 ^ 1100.
Proof.
  intros Hn Hdiv.
  destruct (Z.lt_ge_cases (Z.abs a) (2 ^ 1100)) as [|Hbig]; [assumption|].
  exfalso.
  assert (H1100 : 0 < 2 ^ 1100) by (apply Z.pow_pos_nonneg; lia).
  assert (Hmax : max_size < 2 ^ 64) by reflexivity.
  unfold int_true_div in Hdiv.
  destruct n as [|n|n]; try lia.
  destruct a as [|a|a]; [simpl in Hbig; lia | |];
    rewrite (SFdiv_overflow _ _ _ n) in Hdiv;
    try discriminate; simpl; lia.
Qed.

Lemma printable_within (z : Z) :
  Z.abs z < 2 ^ 1100 -> printable (NInt z) = true.
Proof.
  intros H. unfold printable, max_str_digits. apply Z.ltb_lt.
  assert (Hle : 2 ^ 1100 <= 10 ^ 4300)
    by (apply Z.leb_le; vm_compute; reflexivity).
  lia.
Qed.

(** A sum whose average over a list is a float can be written out. *)
Lemma averaged_sum_printable (S : num) (n : Z) (avg : spec_float) :
  0 <= n <= max_size ->
  num_truediv S n = Ok avg ->
  printable S = true.
Proof.
  intros Hn Hdiv. destruct S as [z|f]; [|reflexivity].
  simpl in Hdiv. apply printable_within.
  destruct (Z.eq_dec n 0) as [-> | Hne].
  - destruct z; discriminate.
  - apply (int_true_div_dividend z n avg); [lia | assumption].
Qed.

(** ** Averages *)

Lemma printable_zero : printable (NInt 0) = true.
Proof. apply printable_within. reflexivity. Qed.

Lemma numeric_process_written (data_batch : list pyval) (S : num)
    (avg : spec_float) :
  py_sum data_batch = Ok S ->
  printable S = true ->
  num_truediv S (len data_batch) = Ok avg ->
  NumericProcessor.process (VList data_batch)
  = Ok [Lit "Processed "; Str (VInt (len data_batch));
        Lit " numeric values , sum="; Str (of_num S); Lit ", avg=";
        Str (VFloat avg)].
Proof.
  intros HS HP Havg. unfold NumericProcessor.process, format_num.
  cbn [py_len py_iter bind]. rewrite HS. cbn [bind]. rewrite HP.
  cbn [bind]. fold (len data_batch). now rewrite Havg.
Qed.

(** The sum of a list is written out whenever its average is a float. *)
Lemma numeric_process_reports (data_batch : list pyval) (S : num)
    (avg : spec_float) :
  py_sum data_batch = Ok S ->
  num_truediv S (len data_batch) = Ok avg ->
  len data_batch <= max_size ->
  NumericProcessor.process (VList data_batch)
  = Ok [Lit "Processed "; Str (VInt (len data_batch));
        Lit " numeric values , sum="; Str (of_num S); Lit ", avg=";
        Str (VFloat avg)].
Proof.
  intros HS Havg Hlen. apply numeric_process_written; auto.
  apply (averaged_sum_printable S (len data_batch) avg); auto.
  split; [apply len_nonneg | exact Hlen].
Qed.

(** With nothing to count, the division by the length raises, whatever the
    container. *)
Lemma numeric_process_no_items (data : pyval) :
  py_len data = Ok 0 ->
  NumericProcessor.process data = Raise ZeroDivisionError.
Proof.
  assert (Hempty : NumericProcessor.process (VList [])
                   = Raise ZeroDivisionError).
  { unfold NumericProcessor.process, format_num. cbn [py_len py_iter bind].
    change (py_sum []) with (Ok (NInt 0) : result num). cbn [bind].
    now rewrite printable_zero. }
  destruct data as [| | | |s|l]; try discriminate.
  - destruct s; [intros _ | simpl; intros [= H]; lia].
    unfold NumericProcessor.process, format_num. cbn [py_len py_iter bind].
    change (py_sum (chars "")) with (Ok (NInt 0) : result num). cbn [bind].
    now rewrite printable_zero.
  - destruct l; [intros _; exact Hempty | simpl; intros [= H]; lia].
Qed.

Lemma sensor_numeric_average (data_batch : list pyval) :
  Forall (fun v => is_numeric v = true) data_batch ->
  data_batch <> [] ->
  (exists avg, SensorStream.average data_batch = Ok avg) \/
  SensorStream.average data_batch = Raise OverflowError.
Proof.
  intros Hnum Hne. unfold SensorStream.average.
  destruct (py_sum_cases data_batch) as [[s Hs] | [Hs | Hs]].
  - rewrite Hs. cbn [bind]. apply num_truediv_cases. now apply len_nonzero.
  - now apply sum_numeric_no_type_error in Hs.
  - rewrite Hs. auto.
Qed.

(** C1, as amended.  For a batch with sum [S] and average [avg = S / n],
    [SensorStream.process_batch] and [NumericProcessor.process] both report
    [avg] (and the latter [S]), the batch of [process] being a list, of at
    most [sys.maxsize] items; a non-empty batch of numbers is never
    reported invalid, nor does it raise a [TypeError] or a
    [ZeroDivisionError]; for a list of ints, [S] is their exact sum and
    [avg] the quotient of two ints; on the empty batch [process_batch]
    returns its
    failure string and leaves the stream as it is, whereas [process], which
    handles no exception, raises [ZeroDivisionError]. *)
Theorem average_reported :
  (forall (self : DataStream) (data_batch : list pyval) (S : num)
          (avg : spec_float),
      py_sum data_batch = Ok S ->
      num_truediv S (len data_batch) = Ok avg ->
      SensorStream.process_batch self data_batch
      = (Ok [Lit "["; Str (VStr (stream_id self)); Lit "] ";
             Str (VInt (len data_batch));
             Lit " readings processed, avg: "; Fixed2 avg],
         add_processed self (len data_batch))
      /\ (len data_batch <= max_size ->
          NumericProcessor.process (VList data_batch)
          = Ok [Lit "Processed "; Str (VInt (len data_batch));
                Lit " numeric values , sum="; Str (of_num S); Lit ", avg=";
                Str (VFloat avg)]))
  /\ (forall (self : DataStream) (data_batch : list pyval),
      Forall (fun v => is_numeric v = true) data_batch ->
      data_batch <> [] ->
      fst (SensorStream.process_batch self data_batch)
        <> Ok (SensorStream.invalid self)
      /\ fst (SensorStream.process_batch self data_batch) <> Raise TypeError
      /\ fst (SensorStream.process_batch self data_batch)
           <> Raise ZeroDivisionError)
  /\ (forall (zs : list Z) (avg : spec_float),
      int_true_div (Zsum zs) (Z.of_nat (length zs)) = Ok avg ->
      Z.of_nat (length zs) <= max_size ->
      NumericProcessor.process (VList (map VInt zs))
      = Ok [Lit "Processed "; Str (VInt (Z.of_nat (length zs)));
            Lit " numeric values , sum="; Str (VInt (Zsum zs));
            Lit ", avg="; Str (VFloat avg)])
  /\ (forall self : DataStream,
      SensorStream.process_batch self []
      = (Ok (SensorStream.invalid self), self))
  /\ NumericProcessor.process (VList []) = Raise ZeroDivisionError.
Proof.
  split; [|split; [|split; [|split]]].
  - intros self data_batch S avg HS Havg. split.
    + apply sensor_success. unfold SensorStream.average. now rewrite HS.
    + intros Hlen. now apply numeric_process_reports.
  - intros self data_batch Hnum Hne.
    destruct (sensor_numeric_average _ Hnum Hne) as [[avg Ha] | Ha].
    + rewrite (sensor_success _ _ _ Ha). repeat split; discriminate.
    + rewrite (sensor_failure _ _ _ Ha). repeat split; discriminate.
  - intros zs avg Havg Hlen.
    rewrite (numeric_process_reports _ (NInt (Zsum zs)) avg).
    + unfold len. now rewrite length_map.
    + apply py_sum_ints.
    + unfold len. now rewrite length_map.
    + unfold len. now rewrite length_map.
  - reflexivity.
  - now apply numeric_process_no_items.
Qed.

(** The demo batch [[1, 2, 3, 4, 5]]: sum 15, average 3.0, which is
    [6755399441055744 * 2 ^ -51]. *)
Lemma average_reported_witness :
  (SensorStream.process_batch (SensorStream.init "SENSOR_001")
     (map VInt [1; 2; 3; 4; 5])
   = (Ok [Lit "["; Str (VStr "SENSOR_001"); Lit "] "; Str (VInt 5);
          Lit " readings processed, avg: ";
          Fixed2 (S754_finite false 6755399441055744 (-51))],
      add_processed (SensorStream.init "SENSOR_001") 5)
   /\ NumericProcessor.process (VList (map VInt [1; 2; 3; 4; 5]))
      = Ok [Lit "Processed "; Str (VInt 5); Lit " numeric values , sum=";
            Str (VInt 15); Lit ", avg=";
            Str (VFloat (S754_finite false 6755399441055744 (-51)))])
  /\ fst (SensorStream.process_batch (SensorStream.init "SENSOR_001")
            (map VInt [1; 2; 3; 4; 5]))
     <> Ok (SensorStream.invalid (SensorStream.init "SENSOR_001")).
Proof.
  split.
  - destruct (proj1 average_reported
                (SensorStream.init "SENSOR_001") (map VInt [1; 2; 3; 4; 5])
                (NInt 15) (S754_finite false 6755399441055744 (-51)))
      as [Hsensor Hnumeric]; [vm_compute; reflexivity ..|].
    split; [exact Hsensor|]. apply Hnumeric. vm_compute. discriminate.
  - apply (proj1 (proj2 average_reported)
             (SensorStream.init "SENSOR_001") (map VInt [1; 2; 3; 4; 5])).
    + repeat constructor.
    + discriminate.
Defined.

(** C1 as stated fails for [process]: the empty list makes it raise. *)
Lemma process_empty_raises :
  raises (NumericProcessor.process (VList [])).
Proof. exists ZeroDivisionError. now apply numeric_process_no_items. Qed.

(** ** Outcomes of [process_batch] *)







(** ** The count of processed items *)

Lemma perform_class (self : DataStream) (k : call) :
  class_of (perform self k) = class_of self.
Proof. destruct k; simpl; auto using process_batch_class. Qed.

Lemma perform_count (self : DataStream) (k : call) :
  processed_count (perform self k)
  = processed_count self + items_of (class_of self) k.
Proof.
  destruct k; simpl; try lia. apply process_batch_count.
Qed.



Lemma run_count (self : DataStream) (calls : list call) :
  processed_count (run self calls)
  = processed_count self + items_aggregated (class_of self) calls.
Proof.
  unfold run. revert self. induction calls as [|k calls IH]; intros self; simpl.
  - lia.
  - rewrite IH, perform_class, perform_count. lia.
Qed.



(** ** Validation *)

Lemma for_each_is_integer (items : list pyval) :
  for_each getattr_is_integer items = Ok tt \/
  for_each getattr_is_integer items = Raise AttributeError.
Proof.
  induction items as [|x items IH]; simpl; auto.
  unfold getattr_is_integer. destruct (is_float x); simpl; auto.
Qed.

(** No [validate] raises: each returns a boolean. *)
Lemma validate_returns (p : processor) (data : pyval) :
  exists out b, validate p data = (out, Ok b).
Proof.
  destruct p; simpl.
  - unfold NumericProcessor.validate.
    destruct (py_iter data) as [items|e] eqn:Hi; simpl.
    + destruct (for_each_is_integer items) as [-> | ->]; simpl; eauto.
    + destruct data; simpl in Hi; try discriminate;
        injection Hi as <-; simpl; eauto.
  - unfold TextProcessor.validate. destruct data; simpl; eauto.
  - unfold LogProcessor.validate. destruct data; simpl; eauto.
    destruct (str_contains "ERROR" s); simpl; eauto.
    destruct (str_contains "INFO" s); simpl; eauto.
Qed.

(** A value that is neither a string nor a list is turned down by the
    three of them, with their diagnostic. *)
Lemma validate_bare_value (p : processor) (data : pyval) :
  is_container data = false ->
  validate p data = ([diagnostic p], Ok false).
Proof. destruct p, data; simpl; intros; (reflexivity || discriminate). Qed.

(** A list with something that is not a number is turned down by
    [NumericProcessor.validate]. *)
Lemma numeric_validate_bad_item (items : list pyval) :
  Exists (fun v => is_numeric v = false) items ->
  NumericProcessor.validate (VList items) = (["Not list of numbers"], Ok false).
Proof.
  intros H. unfold NumericProcessor.validate. cbn [py_iter bind].
  assert (for_each getattr_is_integer items = Raise AttributeError) as ->;
    [|reflexivity].
  induction H as [x items Hx | x items _ IH]; simpl.
  - unfold getattr_is_integer.
    assert (is_float x = false) as -> by (now destruct x). reflexivity.
  - rewrite IH. unfold getattr_is_integer. now destruct (is_float x).
Qed.

(** A string with no level marker is turned down without a word. *)
Lemma log_validate_no_marker (s : string) :
  str_contains "ERROR" s = false ->
  str_contains "INFO" s = false ->
  LogProcessor.validate (VStr s) = ([], Ok false).
Proof.
  intros H1 H2. unfold LogProcessor.validate. cbn [call_find_found bind].
  rewrite H1, H2. reflexivity.
Qed.

(** C4.  A string with no level marker is not a log entry;
    [LogProcessor.validate] returns [False] for it but prints nothing,
    where the claim has a diagnostic printed. *)
Theorem log_validate_silent :
  LogProcessor.validate (VStr "hello") = ([], Ok false).
Proof. reflexivity. Qed.

(** C10.  The empty list passes [NumericProcessor.validate], the check of
    its items being vacuous, and [process] then raises on the division by
    its length. *)
Theorem empty_list_validated_then_raises :
  NumericProcessor.validate (VList [])
  = (["Validation: Numeric data verified"], Ok true)
  /\ NumericProcessor.process (VList []) = Raise ZeroDivisionError.
Proof. split; reflexivity. Qed.

(** ** Filters *)

(** C5.  With no criteria, or with one that is none of the names its class
    tests for, [filter_data] returns the batch it was given. *)
Theorem filter_data_unrecognized (self : DataStream)
    (data_batch : list pyval) (criteria : option string) :
  (forall c, criteria = Some c -> ~ In c (recognized (class_of self))) ->
  filter_data self data_batch criteria = Ok data_batch.
Proof.
  intros H. destruct criteria as [c|].
  - specialize (H c eq_refl). unfold filter_data, recognized in *.
    destruct (class_of self); simpl in *;
      unfold SensorStream.filter_data, TransactionStream.filter_data,
        EventStream.filter_data;
      repeat match goal with
             | |- context [String.eqb c ?n] =>
                 destruct (String.eqb_spec c n) as [-> | _];
                 [exfalso; apply H; auto|]
             end;
      reflexivity.
  - unfold filter_data. now destruct (class_of self).
Qed.

(** An event stream asked for "warning", which it does not know. *)
Lemma filter_data_unrecognized_witness :
  filter_data (EventStream.init "EVENT_001")
    [VStr "login"; VInt 7; VNone] (Some "warning")
  = Ok [VStr "login"; VInt 7; VNone].
Proof.
  apply filter_data_unrecognized.
  intros c [= <-]. simpl. intros [H | [H | []]]; discriminate H.
Defined.

Lemma sensor_filter_high (self : DataStream) (data_batch : list pyval) :
  Forall (fun v => is_numeric v = true) data_batch ->
  SensorStream.filter_data self data_batch (Some "high")
  = Ok (List.filter (above 30) data_batch).
Proof.
  intros H. cbn. apply filter_comp_total.
  induction H; constructor; auto using py_gt_above.
Qed.

Lemma sensor_filter_standard (self : DataStream) (data_batch : list pyval) :
  Forall (fun v => is_numeric v = true) data_batch ->
  SensorStream.filter_data self data_batch (Some "standard")
  = Ok (List.filter (at_most 30) data_batch).
Proof.
  intros H. cbn. apply filter_comp_total.
  induction H; constructor; auto using py_le_at_most.
Qed.

(** *** The comparison with an int is the comparison of the values *)

Lemma pow2_Q (e : Z) : 0 <= e -> (Qpower 2 e == inject_Z (2 ^ e))%Q.
Proof. intros H. now rewrite Zpower_Qpower. Qed.

Lemma pow2_Q_neg (e : Z) : e < 0 -> (Qpower 2 e == / inject_Z (2 ^ (- e)))%Q.
Proof.
  intros H. replace e with (- (- e)) at 1 by lia.
  rewrite Qpower_opp. rewrite Zpower_Qpower by lia. reflexivity.
Qed.

Lemma scaled_cmp (M z e : Z) :
  let c := if 0 <=? e then (M * 2 ^ e ?= z) else (M ?= z * 2 ^ (- e)) in
  (c = Gt <-> (inject_Z z < inject_Z M * Qpower 2 e)%Q) /\
  (c <> Gt <-> (inject_Z M * Qpower 2 e <= inject_Z z)%Q).
Proof.
  intros c. subst c.
  destruct (Z.leb_spec 0 e) as [He | He].
  - rewrite (pow2_Q e He), <- inject_Z_mult, <- Zlt_Qlt, <- Zle_Qle.
    rewrite Z.compare_gt_iff. split; [reflexivity | apply Z.nlt_ge].
  - rewrite (pow2_Q_neg e He).
    assert (HD : 0 < 2 ^ (- e)) by (apply Z.pow_pos_nonneg; lia).
    set (D := 2 ^ (- e)) in *.
    assert (HDq : (0 < inject_Z D)%Q) by (rewrite <- (Zlt_Qlt 0); exact HD).
    assert (Hm : (inject_Z M * / inject_Z D * inject_Z D == inject_Z M)%Q).
    { field. intros H0. rewrite H0 in HDq. apply (Qlt_irrefl _ HDq). }
    rewrite Z.compare_gt_iff.
    rewrite <- (Qmult_lt_r _ _ _ HDq), <- (Qmult_le_r _ _ _ HDq), Hm.
    rewrite <- !inject_Z_mult, <- Zlt_Qlt, <- Zle_Qle.
    split; [reflexivity | apply Z.nlt_ge].
Qed.

Lemma num_cmp_int_spec (x : num) (z : Z) :
  (num_cmp_int x z = Some Gt <-> value_above z (num_value x)) /\
  ((exists c, num_cmp_int x z = Some c /\ c <> Gt)
   <-> value_at_most z (num_value x)).
Proof.
  destruct x as [a | [s | s | | s m e]];
    cbn [num_cmp_int float_cmp_int num_value float_value value_above
         value_at_most].
  - rewrite <- Zlt_Qlt, <- Zle_Qle. split.
    + split; [intros [= H]; now apply Z.compare_gt_iff
             | intros H; f_equal; now apply Z.compare_gt_iff].
    + split.
      * intros [c [[= <-] Hc]]. now apply Z.compare_le_iff.
      * intros H. eexists. split; [reflexivity | now apply Z.compare_le_iff].
  - change 0%Q with (inject_Z 0). rewrite <- Zlt_Qlt, <- Zle_Qle. split.
    + split; [intros [= H]; now apply Z.compare_gt_iff
             | intros H; f_equal; now apply Z.compare_gt_iff].
    + split.
      * intros [c [[= <-] Hc]]. now apply Z.compare_le_iff.
      * intros H. eexists. split; [reflexivity | now apply Z.compare_le_iff].
  - destruct s; cbn.
    + split; split;
        [discriminate | intros []
        | intros _; exact I
        | intros _; exists Lt; split; [reflexivity | discriminate]].
    + split; split;
        [intros _; exact I | reflexivity
        | intros [c [[= <-] Hc]]; congruence
        | intros []].
  - split; split;
      [discriminate | intros [] | intros [c [H _]]; discriminate | intros []].
  - destruct (scaled_cmp (cond_Zopp s (Zpos m)) z e) as [Hgt Hle].
    cbv zeta in Hgt, Hle. split.
    + rewrite <- Hgt. split; [now intros [= H] | now intros ->].
    + rewrite <- Hle. split.
      * now intros [c [[= <-] Hc]].
      * intros H. eexists. split; [reflexivity | exact H].
Qed.

Lemma above_spec (z : Z) (v : pyval) :
  above z v = true <->
  exists x, as_num v = Some x /\ value_above z (num_value x).
Proof.
  unfold above. destruct (as_num v) as [x|].
  - destruct (num_cmp_int_spec x z) as [Hgt _]. split.
    + intros H. exists x. split; [reflexivity|]. apply Hgt.
      destruct (num_cmp_int x z) as [[]|]; congruence.
    + intros [x' [[= <-] H]]. apply Hgt in H. now rewrite H.
  - split; [discriminate | intros [x [H _]]; discriminate].
Qed.

Lemma at_most_spec (z : Z) (v : pyval) :
  at_most z v = true <->
  exists x, as_num v = Some x /\ value_at_most z (num_value x).
Proof.
  unfold at_most. destruct (as_num v) as [x|].
  - destruct (num_cmp_int_spec x z) as [_ Hle]. split.
    + intros H. exists x. split; [reflexivity|]. apply Hle.
      destruct (num_cmp_int x z) as [[]|]; try discriminate;
        eexists; (split; [reflexivity | discriminate]).
    + intros [x' [[= <-] H]]. apply Hle in H as [c [-> Hc]].
      now destruct c.
  - split; [discriminate | intros [x [H _]]; discriminate].
Qed.

(** C6.  On a batch of numbers, [SensorStream.filter_data] with "high"
    returns, in order, the items whose value is strictly above 30, and with
    "standard" those whose value is at most 30; the batch [[22.5, 50, 21.8]]
    with "high" gives [[50]]. *)
Theorem sensor_filter_threshold :
  (forall (self : DataStream) (data_batch : list pyval),
      Forall (fun v => is_numeric v = true) data_batch ->
      SensorStream.filter_data self data_batch (Some "high")
      = Ok (List.filter (above 30) data_batch)
      /\ SensorStream.filter_data self data_batch (Some "standard")
         = Ok (List.filter (at_most 30) data_batch))
  /\ (forall v : pyval,
      above 30 v = true <->
      exists x, as_num v = Some x /\ value_above 30 (num_value x))
  /\ (forall v : pyval,
      at_most 30 v = true <->
      exists x, as_num v = Some x /\ value_at_most 30 (num_value x))
  /\ (forall self : DataStream,
      SensorStream.filter_data self [VFloat f22_5; VInt 50; VFloat f21_8]
        (Some "high")
      = Ok [VInt 50]).
Proof.
  split; [|split; [|split]].
  - intros self data_batch H.
    split; [now apply sensor_filter_high | now apply sensor_filter_standard].
  - apply above_spec.
  - apply at_most_spec.
  - reflexivity.
Qed.

(** The demo batch with "standard": the two readings below 30. *)
Lemma sensor_filter_threshold_witness :
  SensorStream.filter_data (SensorStream.init "SENSOR_001")
    [VFloat f22_5; VInt 50; VFloat f21_8] (Some "standard")
  = Ok [VFloat f22_5; VFloat f21_8].
Proof.
  apply (proj1 sensor_filter_threshold (SensorStream.init "SENSOR_001")
           [VFloat f22_5; VInt 50; VFloat f21_8]).
  repeat constructor.
Defined.

(** ** Events *)

Lemma error_event_spec (v : pyval) :
  error_event v = true <-> exists s, v = VStr s /\ substring_of "error" s.
Proof.
  destruct v as [| | | |s|l]; simpl;
    try (split; [discriminate | intros [s' [H _]]; discriminate]).
  rewrite str_contains_spec. split.
  - intros H. now exists s.
  - now intros [s' [[= <-] H]].
Qed.

(** C8.  [EventStream.process_batch] reports the length of the batch as
    its total and, as its error count, the number of items that are strings
    with "error" as a substring; the batch [["login", "error", "logout"]]
    gives 1 error of 3 events. *)
Theorem event_error_count :
  (forall (self : DataStream) (data_batch : list pyval),
      EventStream.process_batch self data_batch
      = (Ok [Lit "["; Str (VStr (stream_id self)); Lit "] ";
             Str (VInt (Z.of_nat (length data_batch)));
             Lit " events processed, ";
             Str (VInt (Z.of_nat
                          (length (List.filter error_event data_batch))));
             Lit " error(s)"],
         add_processed self (Z.of_nat (length data_batch))))
  /\ (forall v : pyval,
      error_event v = true <->
      exists s, v = VStr s /\ substring_of "error" s)
  /\ EventStream.process_batch (EventStream.init "EVENT_001")
       [VStr "login"; VStr "error"; VStr "logout"]
     = (Ok [Lit "["; Str (VStr "EVENT_001"); Lit "] "; Str (VInt 3);
            Lit " events processed, "; Str (VInt 1); Lit " error(s)"],
        add_processed (EventStream.init "EVENT_001") 3).
Proof.
  split; [|split].
  - apply event_success.
  - apply error_event_spec.
  - reflexivity.
Qed.

(** ** Filters that raise *)

Lemma event_filter_raises (self : DataStream) (data_batch : list pyval)
    (c : string) :
  c = "error" \/ c = "info" ->
  Exists (fun v => is_container v = false) data_batch ->
  EventStream.filter_data self data_batch (Some c) = Raise TypeError.
Proof.
  intros [-> | ->] Hex; cbn; apply filter_comp_raise.
  - apply Forall_forall. intros x _. apply py_in_cases.
  - apply Exists_exists in Hex as [v [Hin Hv]]. apply Exists_exists.
    exists v. split; [exact Hin | now apply py_in_not_container].
  - apply Forall_forall. intros x _.
    destruct (py_in_cases "error" x) as [[b ->] | ->]; simpl; eauto.
  - apply Exists_exists in Hex as [v [Hin Hv]]. apply Exists_exists.
    exists v. split; [exact Hin|]. now rewrite py_in_not_container.
Qed.

Lemma sensor_filter_raises (self : DataStream) (data_batch : list pyval)
    (c : string) :
  c = "high" \/ c = "standard" ->
  Exists (fun v => is_numeric v = false) data_batch ->
  SensorStream.filter_data self data_batch (Some c) = Raise TypeError.
Proof.
  intros [-> | ->] Hex; cbn; apply filter_comp_raise;
    try (apply Forall_forall; intros x _; apply cmp_with_cases);
    apply Exists_exists in Hex as [v [Hin Hv]]; apply Exists_exists;
    exists v; (split; [exact Hin | now apply cmp_with_non_numeric]).
Qed.

Lemma sensor_non_numeric_batch (self : DataStream) (data_batch : list pyval) :
  Exists (fun v => is_numeric v = false) data_batch ->
  SensorStream.process_batch self data_batch
  = (Ok (SensorStream.invalid self), self) \/
  SensorStream.process_batch self data_batch = (Raise OverflowError, self).
Proof.
  intros Hex. unfold SensorStream.process_batch, SensorStream.average, py_sum.
  destruct (sum_non_numeric _ (NInt 0) Hex) as [-> | ->]; simpl; auto.
Qed.

(** C9.  With a recognized criteria [filter_data] is not total: a batch
    with an item that is neither a string nor a list makes
    [EventStream.filter_data] raise [TypeError] for "error" and for "info",
    though [EventStream.process_batch] returns on it; a batch with an item
    that is not a number makes [SensorStream.filter_data] raise [TypeError]
    for "high" and for "standard", though [SensorStream.process_batch]
    raises no [TypeError] on it.  So for the batches [[404]] and [["hot"]]. *)
Theorem filter_data_not_total :
  (forall (self : DataStream) (data_batch : list pyval),
      Exists (fun v => is_container v = false) data_batch ->
      EventStream.filter_data self data_batch (Some "error")
        = Raise TypeError
      /\ EventStream.filter_data self data_batch (Some "info")
         = Raise TypeError
      /\ exists report,
           fst (EventStream.process_batch self data_batch) = Ok report)
  /\ (forall (self : DataStream) (data_batch : list pyval),
      Exists (fun v => is_numeric v = false) data_batch ->
      SensorStream.filter_data self data_batch (Some "high")
        = Raise TypeError
      /\ SensorStream.filter_data self data_batch (Some "standard")
         = Raise TypeError
      /\ fst (SensorStream.process_batch self data_batch) <> Raise TypeError)
  /\ (forall self : DataStream,
      EventStream.filter_data self [VInt 404] (Some "error")
        = Raise TypeError
      /\ fst (EventStream.process_batch self [VInt 404])
         = Ok [Lit "["; Str (VStr (stream_id self)); Lit "] "; Str (VInt 1);
               Lit " events processed, "; Str (VInt 0); Lit " error(s)"])
  /\ (forall self : DataStream,
      SensorStream.filter_data self [VStr "hot"] (Some "high")
        = Raise TypeError
      /\ SensorStream.process_batch self [VStr "hot"]
         = (Ok (SensorStream.invalid self), self)).
Proof.
  split; [|split; [|split]].
  - intros self data_batch Hex. repeat split.
    + apply event_filter_raises; auto.
    + apply event_filter_raises; auto.
    + rewrite event_success. eexists. reflexivity.
  - intros self data_batch Hex. repeat split.
    + apply sensor_filter_raises; auto.
    + apply sensor_filter_raises; auto.
    + destruct (sensor_non_numeric_batch self _ Hex) as [-> | ->];
        discriminate.
  - intros self. split; reflexivity.
  - intros self. split; reflexivity.
Qed.

(** A [None] among the events, a string among the readings. *)
Lemma filter_data_not_total_witness :
  EventStream.filter_data (EventStream.init "EVENT_001")
    [VStr "login"; VNone; VStr "error"] (Some "info")
  = Raise TypeError
  /\ SensorStream.filter_data (SensorStream.init "SENSOR_001")
       [VInt 20; VStr "hot"] (Some "standard")
     = Raise TypeError.
Proof.
  split.
  - apply (proj1 filter_data_not_total (EventStream.init "EVENT_001")
             [VStr "login"; VNone; VStr "error"]).
    apply Exists_cons_tl, Exists_cons_hd. reflexivity.
  - apply (proj1 (proj2 filter_data_not_total)
             (SensorStream.init "SENSOR_001") [VInt 20; VStr "hot"]).
    apply Exists_cons_tl, Exists_cons_hd. reflexivity.
Defined.

(** ** The orchestrator *)

Import StreamProcessor.

Lemma process_streams_app (pre post : list loc)
    (data_map : gmap string (list pyval)) (h : heap) :
  process_streams (pre ++ post)%list data_map h
  = (fst (process_streams post data_map
            (fst (process_streams pre data_map h))),
     (snd (process_streams pre data_map h)
      ++ snd (process_streams post data_map
                (fst (process_streams pre data_map h))))%list).
Proof.
  revert h. induction pre as [|l pre IH]; intros h.
  - simpl. now destruct (process_streams post data_map h).
  - cbn [app process_streams].
    destruct (process_batch (h l) _) as [r stream'].
    rewrite IH.
    destruct (process_streams pre data_map (store h l stream')) as [h1 out1].
    reflexivity.
Qed.

Lemma process_streams_one (l : loc) (data_map : gmap string (list pyval))
    (h : heap) :
  process_streams [l] data_map h
  = (store h l
       (snd (process_batch (h l) (default [] (data_map !! stream_id (h l))))),
     [process_line
        (snd (process_batch (h l) (default [] (data_map !! stream_id (h l)))))
        (fst (process_batch (h l)
                (default [] (data_map !! stream_id (h l)))))]).
Proof.
  cbn [process_streams].
  now destruct (process_batch (h l) _) as [r stream'].
Qed.

Lemma process_streams_length (streams : list loc)
    (data_map : gmap string (list pyval)) (h : heap) :
  length (snd (process_streams streams data_map h)) = length streams.
Proof.
  revert h. induction streams as [|l streams IH]; intros h.
  - reflexivity.
  - cbn [process_streams].
    destruct (process_batch (h l) _) as [r stream'].
    specialize (IH (store h l stream')).
    destruct (process_streams streams data_map (store h l stream')).
    simpl in *. now rewrite IH.
Qed.

(** C7.  Whatever came before it in the list and however that ended, each
    stream [l] has [process_batch] called on it, with the batch found under
    its identifier or the empty batch when there is none; the line printed
    at its position is the result, or the error line when the call raised;
    the object is updated in the store; and the streams after it are
    processed from there. *)
Theorem process_streams_every_stream (pre post : list loc) (l : loc)
    (data_map : gmap string (list pyval)) (h : heap) :
  let h1 := fst (process_streams pre data_map h) in
  let stream := h1 l in
  let batch :=
    match data_map !! stream_id stream with Some b => b | None => [] end in
  let outcome := process_batch stream batch in
  let line :=
    match fst outcome with
    | Ok result => result
    | Raise e =>
        [Lit "Processing error in "; Str (VStr (stream_id stream));
         Lit ": "; Msg e]
    end in
  let all := process_streams (pre ++ l :: post)%list data_map h in
  snd all !! length pre = Some line
  /\ length (snd all) = length (pre ++ l :: post)%list
  /\ fst (process_streams (pre ++ [l])%list data_map h)
     = store h1 l (snd outcome)
  /\ all = (fst (process_streams post data_map (store h1 l (snd outcome))),
            (snd (process_streams pre data_map h) ++ line
             :: snd (process_streams post data_map
                       (store h1 l (snd outcome))))%list).
Proof.
  intros h1 stream batch outcome line all.
  assert (Hline : process_line (snd outcome) (fst outcome) = line).
  { subst line outcome. unfold process_line.
    now rewrite process_batch_id. }
  assert (Hall : all
                 = (fst (process_streams post data_map
                           (store h1 l (snd outcome))),
                    (snd (process_streams pre data_map h) ++ line
                     :: snd (process_streams post data_map
                               (store h1 l (snd outcome))))%list)).
  { subst all. rewrite process_streams_app. fold h1.
    change (l :: post) with ([l] ++ post)%list.
    rewrite process_streams_app, process_streams_one.
    fold stream. change (default [] (data_map !! stream_id stream)) with batch.
    fold outcome. cbn [fst snd app]. now rewrite Hline. }
  split; [|split; [|split]].
  - rewrite Hall. cbn [snd].
    rewrite lookup_app_r by (now rewrite process_streams_length).
    rewrite process_streams_length, Nat.sub_diag. reflexivity.
  - subst all. apply process_streams_length.
  - rewrite process_streams_app, process_streams_one. reflexivity.
  - exact Hall.
Qed.

(** An error in the first stream, a missing entry for the second, and the
    first object once more at the end of the list. *)
Lemma process_streams_after_error :
  snd (process_streams [0%nat; 1%nat; 0%nat]
         {["SENSOR_001" := [VInt (10 ^ 400)]]} demo_heap)
  = [[Lit "Processing error in "; Str (VStr "SENSOR_001"); Lit ": ";
      Msg OverflowError];
     [Lit "["; Str (VStr "EVENT_001"); Lit "] "; Str (VInt 0);
      Lit " events processed, "; Str (VInt 0); Lit " error(s)"];
     [Lit "Processing error in "; Str (VStr "SENSOR_001"); Lit ": ";
      Msg OverflowError]].
Proof. vm_compute. reflexivity. Qed.

(** The same object twice in the list: both batches are counted on it. *)
Lemma process_streams_shared_object :
  processed_count
    (fst (process_streams [0%nat; 0%nat]
            {["SENSOR_001" := [VInt 20; VInt 40]]} demo_heap) 0%nat)
  = 4.
Proof. vm_compute. reflexivity. Qed.

(** * Further properties *)

(** ** What every filter keeps *)

Lemma filter_comp_sublist (test : pyval -> result bool)
    (items kept : list pyval) :
  filter_comp test items = Ok kept -> sublist kept items.
Proof.
  revert kept. induction items as [|x items IH]; intros kept; simpl.
  - intros [= <-]. constructor.
  - destruct (test x) as [b|e]; [|discriminate]. simpl.
    destruct (filter_comp test items) as [r|e]; [|discriminate]. simpl.
    intros [= <-]. destruct b; constructor; now apply IH.
Qed.

Lemma filter_comp_again (test : pyval -> result bool)
    (items kept : list pyval) :
  filter_comp test items = Ok kept -> filter_comp test kept = Ok kept.
Proof.
  revert kept. induction items as [|x items IH]; intros kept; simpl.
  - now intros [= <-].
  - destruct (test x) as [b|e] eqn:Hx; [|discriminate]. simpl.
    destruct (filter_comp test items) as [r|e]; [|discriminate]. simpl.
    intros [= <-]. destruct b; [|now apply IH].
    simpl. rewrite Hx. simpl. now rewrite (IH r).
Qed.

Lemma filter_comp_raise_inv (test : pyval -> result bool)
    (items : list pyval) (e : exn) :
  filter_comp test items = Raise e -> exists v, In v items /\ test v = Raise e.
Proof.
  induction items as [|x items IH]; simpl; [discriminate|].
  destruct (test x) as [b|e'] eqn:Hx; simpl.
  - destruct (filter_comp test items) as [r|e']; [discriminate|].
    simpl. intros [= <-]. destruct IH as [v [Hin Hv]]; eauto.
  - intros [= <-]. eauto.
Qed.

(** The filters of the three classes, as comprehensions. *)
Lemma filter_data_cases (self : DataStream) (data_batch : list pyval)
    (criteria : option string) :
  filter_data self data_batch criteria = Ok data_batch \/
  exists test,
    filter_data self data_batch criteria = filter_comp test data_batch
    /\ (exists c, criteria = Some c /\ In c (recognized (class_of self)))
    /\ forall v e, test v = Raise e ->
         e = TypeError
         /\ (if class_of self is Event then is_container v
             else is_numeric v) = false.
Proof.
  unfold filter_data, recognized.
  destruct criteria as [c|]; [|destruct (class_of self); now left].
  assert (Hcmp : forall t v z e,
             cmp_with t v z = Raise e ->
             e = TypeError /\ is_numeric v = false).
  { intros t v z e. unfold cmp_with, is_numeric.
    destruct (as_num v); [discriminate | now intros [= <-]]. }
  assert (Hin : forall v e,
             py_in "error" v = Raise e ->
             e = TypeError /\ is_container v = false).
  { intros v e. destruct v; simpl; try discriminate; now intros [= <-]. }
  destruct (class_of self); simpl;
    unfold SensorStream.filter_data, TransactionStream.filter_data,
      EventStream.filter_data;
    repeat match goal with
           | |- context [String.eqb c ?n] =>
               destruct (String.eqb_spec c n) as [-> | _]
           end;
    try (now left); right; eexists; (split; [reflexivity|]);
    (split; [eexists; split; [reflexivity | simpl; auto]|]);
    try (intros v e; apply Hcmp); try apply Hin.
  intros v e. destruct (py_in "error" v) as [b|e'] eqn:Hv; simpl;
    [discriminate|]. intros [= <-]. now apply Hin.
Qed.

(** X1.  What [filter_data] returns is a selection of the batch, in its
    order, and never longer than it. *)
Theorem filter_data_sublist (self : DataStream) (data_batch : list pyval)
    (criteria : option string) (kept : list pyval) :
  filter_data self data_batch criteria = Ok kept ->
  sublist kept data_batch /\ (length kept <= length data_batch)%nat.
Proof.
  intros H.
  assert (Hsub : sublist kept data_batch).
  { destruct (filter_data_cases self data_batch criteria)
      as [Hid | [test [Heq _]]].
    - rewrite Hid in H. injection H as <-. reflexivity.
    - rewrite Heq in H. now apply filter_comp_sublist in H. }
  split; [exact Hsub | now apply sublist_length].
Qed.

Lemma filter_data_sublist_witness :
  sublist [VInt (-75)] [VInt 100; VInt 150; VInt (-75)]
  /\ (length [VInt (-75)] <= length [VInt 100; VInt 150; VInt (-75)])%nat.
Proof.
  apply (filter_data_sublist (TransactionStream.init "TRANS_001")
           [VInt 100; VInt 150; VInt (-75)] (Some "negative")).
  reflexivity.
Defined.

(** X2.  Filtering what a filter returned, with the same criteria, returns
    it again. *)
Theorem filter_data_idempotent (self : DataStream) (data_batch : list pyval)
    (criteria : option string) (kept : list pyval) :
  filter_data self data_batch criteria = Ok kept ->
  filter_data self kept criteria = Ok kept.
Proof.
  intros H. unfold filter_data in *.
  destruct (class_of self), criteria as [c|]; simpl in *;
    unfold SensorStream.filter_data, TransactionStream.filter_data,
      EventStream.filter_data in *;
    try (injection H as <-; reflexivity);
    repeat match goal with
           | |- context [String.eqb c ?n] =>
               destruct (String.eqb c n)
           end;
    try (now apply filter_comp_again in H);
    injection H as <-; reflexivity.
Qed.

Lemma filter_data_idempotent_witness :
  filter_data (SensorStream.init "SENSOR_001") [VInt 50] (Some "high")
  = Ok [VInt 50].
Proof.
  apply (filter_data_idempotent (SensorStream.init "SENSOR_001")
           [VFloat f22_5; VInt 50; VFloat f21_8] (Some "high")).
  reflexivity.
Defined.

(** X3.  [filter_data] raises nothing but [TypeError], and only when the
    criteria is one its class tests for and the batch holds an item the
    test does not apply to: one that is neither a string nor a list for an
    event stream, one that is not a number for the other two. *)
Theorem filter_data_raises_only (self : DataStream) (data_batch : list pyval)
    (criteria : option string) (e : exn) :
  filter_data self data_batch criteria = Raise e ->
  e = TypeError
  /\ (exists c, criteria = Some c /\ In c (recognized (class_of self)))
  /\ exists v, In v data_batch
       /\ (if class_of self is Event then is_container v
           else is_numeric v) = false.
Proof.
  intros H.
  destruct (filter_data_cases self data_batch criteria)
    as [Hid | [test [Heq [Hc Htest]]]].
  - rewrite Hid in H. discriminate.
  - rewrite Heq in H. apply filter_comp_raise_inv in H as [v [Hin Hv]].
    destruct (Htest v e Hv) as [-> Hbad]. eauto.
Qed.

Lemma filter_data_raises_only_witness :
  TypeError = TypeError
  /\ (exists c, Some "negative" = Some c
        /\ In c (recognized (class_of (TransactionStream.init "TRANS_001"))))
  /\ exists v, In v [VInt 100; VNone]
       /\ (if class_of (TransactionStream.init "TRANS_001") is Event
           then is_container v else is_numeric v) = false.
Proof.
  apply (filter_data_raises_only (TransactionStream.init "TRANS_001")
           [VInt 100; VNone] (Some "negative") TypeError).
  reflexivity.
Defined.

(** ** Transactions by sign *)

Lemma scaled_cmp_lt (M z e : Z) :
  let c := if 0 <=? e then (M * 2 ^ e ?= z) else (M ?= z * 2 ^ (- e)) in
  (c = Lt <-> (inject_Z M * Qpower 2 e < inject_Z z)%Q) /\
  (c <> Lt <-> (inject_Z z <= inject_Z M * Qpower 2 e)%Q).
Proof.
  intros c. subst c.
  destruct (Z.leb_spec 0 e) as [He | He].
  - rewrite (pow2_Q e He), <- inject_Z_mult, <- Zlt_Qlt, <- Zle_Qle.
    rewrite Z.compare_lt_iff. split; [reflexivity | apply Z.nlt_ge].
  - rewrite (pow2_Q_neg e He).
    assert (HD : 0 < 2 ^ (- e)) by (apply Z.pow_pos_nonneg; lia).
    set (D := 2 ^ (- e)) in *.
    assert (HDq : (0 < inject_Z D)%Q) by (rewrite <- (Zlt_Qlt 0); exact HD).
    assert (Hm : (inject_Z M * / inject_Z D * inject_Z D == inject_Z M)%Q).
    { field. intros H0. rewrite H0 in HDq. apply (Qlt_irrefl _ HDq). }
    rewrite Z.compare_lt_iff.
    rewrite <- (Qmult_lt_r _ _ _ HDq), <- (Qmult_le_r _ _ _ HDq), Hm.
    rewrite <- !inject_Z_mult, <- Zlt_Qlt, <- Zle_Qle.
    split; [reflexivity | apply Z.nlt_ge].
Qed.

Lemma num_cmp_int_below (x : num) (z : Z) :
  (num_cmp_int x z = Some Lt <-> value_below z (num_value x)) /\
  ((exists c, num_cmp_int x z = Some c /\ c <> Lt)
   <-> value_at_least z (num_value x)).
Proof.
  destruct x as [a | [s | s | | s m e]];
    cbn [num_cmp_int float_cmp_int num_value float_value value_below
         value_at_least].
  - rewrite <- Zlt_Qlt, <- Zle_Qle. split.
    + split; [intros [= H]; now apply Z.compare_lt_iff
             | intros H; f_equal; now apply Z.compare_lt_iff].
    + split.
      * intros [c [[= <-] Hc]]. now apply Z.compare_ge_iff in Hc.
      * intros H. eexists. split; [reflexivity | now apply Z.compare_ge_iff].
  - change 0%Q with (inject_Z 0). rewrite <- Zlt_Qlt, <- Zle_Qle. split.
    + split; [intros [= H]; now apply Z.compare_lt_iff
             | intros H; f_equal; now apply Z.compare_lt_iff].
    + split.
      * intros [c [H Hc]]. apply (Z.compare_ge_iff 0 z). congruence.
      * intros H. eexists. split; [reflexivity | now apply Z.compare_ge_iff].
  - destruct s; cbn.
    + split; split;
        [intros _; exact I | reflexivity
        | intros [c [[= <-] Hc]]; congruence
        | intros []].
    + split; split;
        [discriminate | intros []
        | intros _; exact I
        | intros _; exists Gt; split; [reflexivity | discriminate]].
  - split; split;
      [discriminate | intros [] | intros [c [H _]]; discriminate | intros []].
  - destruct (scaled_cmp_lt (cond_Zopp s (Zpos m)) z e) as [Hlt Hge].
    cbv zeta in Hlt, Hge. split.
    + rewrite <- Hlt. split; [now intros [= H] | now intros ->].
    + rewrite <- Hge. split.
      * now intros [c [[= <-] Hc]].
      * intros H. eexists. split; [reflexivity | exact H].
Qed.

Lemma at_least_spec (z : Z) (v : pyval) :
  at_least z v = true <->
  exists x, as_num v = Some x /\ value_at_least z (num_value x).
Proof.
  unfold at_least. destruct (as_num v) as [x|].
  - destruct (num_cmp_int_below x z) as [_ Hge]. split.
    + intros H. exists x. split; [reflexivity|]. apply Hge.
      destruct (num_cmp_int x z) as [[]|]; try discriminate;
        eexists; (split; [reflexivity | discriminate]).
    + intros [x' [[= <-] H]]. apply Hge in H as [c [-> Hc]].
      now destruct c.
  - split; [discriminate | intros [x [H _]]; discriminate].
Qed.

Lemma below_spec (z : Z) (v : pyval) :
  below z v = true <->
  exists x, as_num v = Some x /\ value_below z (num_value x).
Proof.
  unfold below. destruct (as_num v) as [x|].
  - destruct (num_cmp_int_below x z) as [Hlt _]. split.
    + intros H. exists x. split; [reflexivity|]. apply Hlt.
      destruct (num_cmp_int x z) as [[]|]; congruence.
    + intros [x' [[= <-] H]]. apply Hlt in H. now rewrite H.
  - split; [discriminate | intros [x [H _]]; discriminate].
Qed.

Lemma cmp_with_numeric (test : option comparison -> bool) (v : pyval)
    (z : Z) (b : bool) :
  cmp_with test v z = Ok b -> is_numeric v = true.
Proof. unfold cmp_with, is_numeric. now destruct (as_num v). Qed.

Lemma filter_comp_tests (test : pyval -> result bool)
    (items kept : list pyval) :
  filter_comp test items = Ok kept ->
  Forall (fun x => exists b, test x = Ok b) items.
Proof.
  revert kept. induction items as [|x items IH]; intros kept; simpl.
  - constructor.
  - destruct (test x) as [b|e] eqn:Hx; [|discriminate]. simpl.
    destruct (filter_comp test items) as [r|e]; [|discriminate].
    intros _. constructor; eauto.
Qed.

Lemma filter_comp_cmp_numeric (test : option comparison -> bool) (z : Z)
    (items kept : list pyval) :
  filter_comp (fun data => cmp_with test data z) items = Ok kept ->
  Forall (fun v => is_numeric v = true) items.
Proof.
  intros H. apply filter_comp_tests in H.
  induction H as [|x items [b Hb] _ IH]; constructor; auto.
  now apply cmp_with_numeric in Hb.
Qed.

Lemma transaction_filter_positive (self : DataStream)
    (data_batch : list pyval) :
  Forall (fun v => is_numeric v = true) data_batch ->
  TransactionStream.filter_data self data_batch (Some "positive")
  = Ok (List.filter (at_least 0) data_batch).
Proof.
  intros H. cbn. apply filter_comp_total.
  induction H as [|v l Hv _ IH]; constructor; auto.
  unfold py_ge, cmp_with, at_least, is_numeric in *.
  now destruct (as_num v).
Qed.

Lemma transaction_filter_negative (self : DataStream)
    (data_batch : list pyval) :
  Forall (fun v => is_numeric v = true) data_batch ->
  TransactionStream.filter_data self data_batch (Some "negative")
  = Ok (List.filter (below 0) data_batch).
Proof.
  intros H. cbn. apply filter_comp_total.
  induction H as [|v l Hv _ IH]; constructor; auto.
  unfold py_lt, cmp_with, below, is_numeric in *.
  now destruct (as_num v).
Qed.

(** X4.  On a batch of numbers, [TransactionStream.filter_data] with
    "positive" returns, in order, the items whose value is at least 0 (a
    zero counts as positive), and with "negative" those whose value is
    below 0. *)
Theorem transaction_filter_sign :
  (forall (self : DataStream) (data_batch : list pyval),
      Forall (fun v => is_numeric v = true) data_batch ->
      TransactionStream.filter_data self data_batch (Some "positive")
      = Ok (List.filter (at_least 0) data_batch)
      /\ TransactionStream.filter_data self data_batch (Some "negative")
         = Ok (List.filter (below 0) data_batch))
  /\ (forall v : pyval,
      at_least 0 v = true <->
      exists x, as_num v = Some x /\ value_at_least 0 (num_value x))
  /\ (forall v : pyval,
      below 0 v = true <->
      exists x, as_num v = Some x /\ value_below 0 (num_value x)).
Proof.
  split; [|split].
  - intros self data_batch H. split.
    + now apply transaction_filter_positive.
    + now apply transaction_filter_negative.
  - apply at_least_spec.
  - apply below_spec.
Qed.

(** The transactions of the demo, and a zero among them. *)
Lemma transaction_filter_sign_witness :
  TransactionStream.filter_data (TransactionStream.init "TRANS_001")
    [VInt 100; VInt 0; VInt (-75)] (Some "positive")
  = Ok [VInt 100; VInt 0].
Proof.
  apply (proj1 transaction_filter_sign (TransactionStream.init "TRANS_001")
           [VInt 100; VInt 0; VInt (-75)]).
  repeat constructor.
Defined.

(** ** The two criteria of a class split the batch *)

Lemma filter_three (f g h : pyval -> bool) (l : list pyval) :
  Forall (fun v => (Nat.b2n (f v) + Nat.b2n (g v) + Nat.b2n (h v) = 1)%nat)
    l ->
  (length (List.filter f l) + length (List.filter g l)
   + length (List.filter h l) = length l)%nat.
Proof.
  induction 1 as [|v l Hv _ IH]; [reflexivity|]. simpl.
  destruct (f v), (g v), (h v); simpl in *; lia.
Qed.

Lemma num_cmp_int_nan (x : num) (z : Z) :
  num_cmp_int x z = None <-> x = NFloat S754_nan.
Proof.
  destruct x as [a | [s | s | | s m e]]; simpl; split; congruence.
Qed.

Lemma threshold_trichotomy (z : Z) (v : pyval) :
  is_numeric v = true ->
  (Nat.b2n (above z v) + Nat.b2n (at_most z v) + Nat.b2n (is_nan v) = 1)%nat
  /\ (Nat.b2n (at_least z v) + Nat.b2n (below z v) + Nat.b2n (is_nan v)
      = 1)%nat.
Proof.
  unfold is_numeric, above, at_most, at_least, below.
  destruct v as [|b|a|f| |]; simpl; try discriminate; intros _.
  - destruct (Z.b2z b ?= z); auto.
  - destruct (a ?= z); auto.
  - destruct f as [s | s | | s m e]; simpl; auto.
    + destruct z; auto.
    + destruct s; auto.
    + destruct (if 0 <=? e then _ else _); auto.
Qed.

(** X5.  Each number of a batch is kept by exactly one of "high" and
    "standard", and by exactly one of "positive" and "negative", unless it
    is a NaN, which neither keeps: the sizes of the two selections and the
    number of NaNs add up to the size of the batch. *)
Theorem criteria_split_batch :
  (forall (self : DataStream) (data_batch high standard : list pyval),
      SensorStream.filter_data self data_batch (Some "high") = Ok high ->
      SensorStream.filter_data self data_batch (Some "standard")
        = Ok standard ->
      (length high + length standard
       + length (List.filter is_nan data_batch) = length data_batch)%nat)
  /\ (forall (self : DataStream) (data_batch positive negative : list pyval),
      TransactionStream.filter_data self data_batch (Some "positive")
        = Ok positive ->
      TransactionStream.filter_data self data_batch (Some "negative")
        = Ok negative ->
      (length positive + length negative
       + length (List.filter is_nan data_batch) = length data_batch)%nat).
Proof.
  split.
  - intros self data_batch high standard Hh Hs.
    assert (Hnum : Forall (fun v => is_numeric v = true) data_batch)
      by (cbn in Hh; now apply filter_comp_cmp_numeric in Hh).
    rewrite (sensor_filter_high _ _ Hnum) in Hh.
    rewrite (sensor_filter_standard _ _ Hnum) in Hs.
    injection Hh as <-. injection Hs as <-. apply filter_three.
    induction Hnum as [|v l Hv _ IH]; constructor; auto.
    now apply threshold_trichotomy.
  - intros self data_batch positive negative Hp Hn.
    assert (Hnum : Forall (fun v => is_numeric v = true) data_batch)
      by (cbn in Hp; now apply filter_comp_cmp_numeric in Hp).
    rewrite (transaction_filter_positive _ _ Hnum) in Hp.
    rewrite (transaction_filter_negative _ _ Hnum) in Hn.
    injection Hp as <-. injection Hn as <-. apply filter_three.
    induction Hnum as [|v l Hv _ IH]; constructor; auto.
    now apply threshold_trichotomy.
Qed.

(** Two readings, one of them a NaN, and the transactions of the demo. *)
Lemma criteria_split_batch_witness :
  (length [VInt 50] + length [VFloat f22_5]
   + length (List.filter is_nan [VFloat f22_5; VFloat S754_nan; VInt 50])
   = length [VFloat f22_5; VFloat S754_nan; VInt 50])%nat
  /\ (length [VInt 100; VInt 150] + length [VInt (-75)]
      + length (List.filter is_nan [VInt 100; VInt 150; VInt (-75)])
      = length [VInt 100; VInt 150; VInt (-75)])%nat.
Proof.
  split.
  - apply (proj1 criteria_split_batch (SensorStream.init "SENSOR_001")
             [VFloat f22_5; VFloat S754_nan; VInt 50]); reflexivity.
  - apply (proj2 criteria_split_batch (TransactionStream.init "TRANS_001")
             [VInt 100; VInt 150; VInt (-75)]); reflexivity.
Defined.

(** ** Events: the filters and the count *)

Lemma py_in_container (v : pyval) :
  is_container v = true -> py_in "error" v = Ok (has_error v).
Proof. destruct v; simpl; intros; (reflexivity || discriminate). Qed.

Lemma py_in_ok_container (v : pyval) (b : bool) :
  py_in "error" v = Ok b -> is_container v = true.
Proof. destruct v; simpl; intros; (reflexivity || discriminate). Qed.

Lemma event_filter_containers (self : DataStream) (data_batch : list pyval) :
  Forall (fun v => is_container v = true) data_batch ->
  EventStream.filter_data self data_batch (Some "error")
  = Ok (List.filter has_error data_batch)
  /\ EventStream.filter_data self data_batch (Some "info")
     = Ok (List.filter (fun v => negb (has_error v)) data_batch).
Proof.
  intros H. split; cbn; apply filter_comp_total;
    induction H as [|v l Hv _ IH]; constructor; auto.
  - now apply py_in_container.
  - now rewrite (py_in_container v Hv).
Qed.

Lemma filter_complement (f : pyval -> bool) (l : list pyval) :
  (length (List.filter f l) + length (List.filter (fun v => negb (f v)) l)
   = length l)%nat.
Proof.
  induction l as [|v l IH]; [reflexivity|]. simpl.
  destruct (f v); simpl; lia.
Qed.

(** X6.  When the two event filters return, "error" keeps the strings that
    contain "error" and the lists that have the string "error" among their
    items, "info" keeps the rest, and the two selections together have the
    size of the batch. *)
Theorem event_filters_split (self : DataStream)
    (data_batch errors infos : list pyval) :
  EventStream.filter_data self data_batch (Some "error") = Ok errors ->
  EventStream.filter_data self data_batch (Some "info") = Ok infos ->
  errors = List.filter has_error data_batch
  /\ infos = List.filter (fun v => negb (has_error v)) data_batch
  /\ (length errors + length infos = length data_batch)%nat.
Proof.
  intros He Hi.
  assert (Hc : Forall (fun v => is_container v = true) data_batch).
  { pose proof (filter_comp_tests _ _ _ He) as Ht.
    apply Forall_forall. intros v Hin.
    rewrite Forall_forall in Ht. destruct (Ht v Hin) as [b Hb].
    now apply py_in_ok_container in Hb. }
  destruct (event_filter_containers self _ Hc) as [He' Hi'].
  rewrite He' in He. rewrite Hi' in Hi.
  injection He as <-. injection Hi as <-.
  repeat split. apply filter_complement.
Qed.

Lemma event_filters_split_witness :
  [VStr "error"] = List.filter has_error [VStr "login"; VStr "error"; VStr "logout"]
  /\ [VStr "login"; VStr "logout"]
     = List.filter (fun v => negb (has_error v))
         [VStr "login"; VStr "error"; VStr "logout"]
  /\ (length [VStr "error"] + length [VStr "login"; VStr "logout"]
      = length [VStr "login"; VStr "error"; VStr "logout"])%nat.
Proof.
  apply (event_filters_split (EventStream.init "EVENT_001")
           [VStr "login"; VStr "error"; VStr "logout"]); reflexivity.
Defined.

Lemma has_error_string (v : pyval) :
  isinstance_str v = true -> has_error v = error_event v.
Proof. destruct v; simpl; intros; (reflexivity || discriminate). Qed.

(** X7.  On a batch of strings the "error" filter keeps as many items as
    [process_batch] counts errors.  They part on lists: a list that has the
    string "error" among its items is kept by the filter and is not counted
    as an error. *)
Theorem event_filter_and_count :
  (forall (self : DataStream) (data_batch : list pyval),
      Forall (fun v => isinstance_str v = true) data_batch ->
      exists errors,
        EventStream.filter_data self data_batch (Some "error") = Ok errors
        /\ fst (EventStream.process_batch self data_batch)
           = Ok [Lit "["; Str (VStr (stream_id self)); Lit "] ";
                 Str (VInt (len data_batch)); Lit " events processed, ";
                 Str (VInt (Z.of_nat (length errors))); Lit " error(s)"])
  /\ (forall (self : DataStream) (items : list pyval),
      In (VStr "error") items ->
      EventStream.filter_data self [VList items] (Some "error")
      = Ok [VList items]
      /\ fst (EventStream.process_batch self [VList items])
         = Ok [Lit "["; Str (VStr (stream_id self)); Lit "] ";
               Str (VInt 1); Lit " events processed, ";
               Str (VInt 0); Lit " error(s)"]).
Proof.
  split.
  - intros self data_batch Hstr.
    exists (List.filter error_event data_batch). split.
    + assert (Hc : Forall (fun v => is_container v = true) data_batch).
      { induction Hstr as [|v l Hv _ IH]; constructor; auto.
        now destruct v. }
      rewrite (proj1 (event_filter_containers self _ Hc)). f_equal.
      induction Hstr as [|v l Hv _ IH]; [reflexivity|].
      inversion Hc; subst. simpl.
      rewrite (has_error_string v Hv), IH; auto.
    + now rewrite event_success.
  - intros self items Hin. split; [|reflexivity].
    assert (Hlist : py_in "error" (VList items) = Ok true).
    { simpl. f_equal. apply existsb_exists.
      exists (VStr "error"). split; [exact Hin | reflexivity]. }
    change (EventStream.filter_data self [VList items] (Some "error"))
      with (b <- py_in "error" (VList items) ;;
            r <- Ok [] ;; Ok (if b then VList items :: r else r)).
    now rewrite Hlist.
Qed.

Lemma event_filter_and_count_witness :
  (exists errors,
      EventStream.filter_data (EventStream.init "EVENT_001")
        [VStr "login"; VStr "error"; VStr "logout"] (Some "error")
      = Ok errors
      /\ fst (EventStream.process_batch (EventStream.init "EVENT_001")
                [VStr "login"; VStr "error"; VStr "logout"])
         = Ok [Lit "["; Str (VStr "EVENT_001"); Lit "] ";
               Str (VInt 3); Lit " events processed, ";
               Str (VInt (Z.of_nat (length errors))); Lit " error(s)"])
  /\ EventStream.filter_data (EventStream.init "EVENT_001")
       [VList [VInt 500; VStr "error"]] (Some "error")
     = Ok [VList [VInt 500; VStr "error"]].
Proof.
  split.
  - apply (proj1 event_filter_and_count (EventStream.init "EVENT_001")
             [VStr "login"; VStr "error"; VStr "logout"]).
    repeat constructor.
  - apply (proj2 event_filter_and_count (EventStream.init "EVENT_001")
             [VInt 500; VStr "error"]).
    right. left. reflexivity.
Defined.

(** ** Transactions of ints *)

Lemma Zsum_permutation (zs zs' : list Z) :
  Permutation zs zs' -> Zsum zs = Zsum zs'.
Proof. induction 1; simpl; lia. Qed.

Lemma transaction_ints (self : DataStream) (zs : list Z) :
  TransactionStream.process_batch self (map VInt zs)
  = if Z.abs (Zsum zs) <? 10 ^ max_str_digits
    then (Ok [Lit "["; Str (VStr (stream_id self)); Lit "] ";
              Str (VInt (Z.of_nat (length zs)));
              Lit " operations processed, net flow: ";
              Str (VInt (Zsum zs))],
          add_processed self (Z.of_nat (length zs)))
    else (Raise ValueError, add_processed self (Z.of_nat (length zs))).
Proof.
  pose proof (py_sum_ints zs) as Hs.
  assert (Hlen : len (map VInt zs) = Z.of_nat (length zs))
    by (unfold len; now rewrite length_map).
  destruct (Z.abs (Zsum zs) <? 10 ^ max_str_digits) eqn:Hp.
  - now rewrite (transaction_success _ _ _ Hs Hp), Hlen.
  - now rewrite (transaction_unwritten _ _ _ Hs Hp), Hlen.
Qed.

(** X8.  The aggregation of a batch of ints always completes for a
    transaction stream, and the count grows by their number.  When their
    exact sum has at most 4300 digits it is the net flow reported; beyond
    that the call raises [ValueError], the count having grown all the
    same.  Either way the outcome does not depend on the order of the
    ints. *)
Theorem transaction_ints_net_flow :
  (forall (self : DataStream) (zs : list Z),
      Z.abs (Zsum zs) < 10 ^ max_str_digits ->
      TransactionStream.process_batch self (map VInt zs)
      = (Ok [Lit "["; Str (VStr (stream_id self)); Lit "] ";
             Str (VInt (Z.of_nat (length zs)));
             Lit " operations processed, net flow: "; Str (VInt (Zsum zs))],
         add_processed self (Z.of_nat (length zs))))
  /\ (forall (self : DataStream) (zs : list Z),
      10 ^ max_str_digits <= Z.abs (Zsum zs) ->
      TransactionStream.process_batch self (map VInt zs)
      = (Raise ValueError, add_processed self (Z.of_nat (length zs))))
  /\ (forall (self : DataStream) (zs zs' : list Z),
      Permutation zs zs' ->
      TransactionStream.process_batch self (map VInt zs)
      = TransactionStream.process_batch self (map VInt zs')).
Proof.
  split; [|split].
  - intros self zs H. rewrite transaction_ints.
    apply Z.ltb_lt in H. now rewrite H.
  - intros self zs H. rewrite transaction_ints.
    apply Z.ltb_ge in H. now rewrite H.
  - intros self zs zs' Hp. rewrite !transaction_ints.
    now rewrite (Zsum_permutation _ _ Hp), (Permutation_length Hp).
Qed.

(** The transactions of the demo, in two orders, and one int of 4301
    digits. *)
Lemma transaction_ints_net_flow_witness :
  TransactionStream.process_batch (TransactionStream.init "TRANS_001")
    (map VInt [100; 150; -75])
  = (Ok [Lit "["; Str (VStr "TRANS_001"); Lit "] "; Str (VInt 3);
         Lit " operations processed, net flow: "; Str (VInt 175)],
     add_processed (TransactionStream.init "TRANS_001") 3)
  /\ TransactionStream.process_batch (TransactionStream.init "TRANS_001")
       (map VInt [10 ^ 4300])
     = (Raise ValueError,
        add_processed (TransactionStream.init "TRANS_001") 1)
  /\ TransactionStream.process_batch (TransactionStream.init "TRANS_001")
       (map VInt [100; 150; -75])
     = TransactionStream.process_batch (TransactionStream.init "TRANS_001")
         (map VInt [-75; 100; 150]).
Proof.
  split; [|split].
  - apply (proj1 transaction_ints_net_flow
             (TransactionStream.init "TRANS_001") [100; 150; -75]).
    vm_compute. reflexivity.
  - apply (proj1 (proj2 transaction_ints_net_flow)
             (TransactionStream.init "TRANS_001") [10 ^ 4300]).
    vm_compute. discriminate.
  - apply (proj2 (proj2 transaction_ints_net_flow)).
    symmetry. apply (Permutation_cons_append [100; 150] (-75)).
Defined.

(** ** Statistics *)

Lemma perform_id (self : DataStream) (k : call) :
  stream_id (perform self k) = stream_id self.
Proof. destruct k; simpl; auto using process_batch_id. Qed.

Lemma run_id (self : DataStream) (calls : list call) :
  stream_id (run self calls) = stream_id self.
Proof.
  unfold run. revert self. induction calls as [|k calls IH]; intros self.
  - reflexivity.
  - simpl. now rewrite IH, perform_id.
Qed.

(** X9.  Whatever calls were made on a stream since it was created,
    [get_stats] has two entries: its identifier, as given to the
    constructor, and the number of items of the batches whose aggregation
    completed. *)
Theorem get_stats_after_calls (c : stream_class) (id : string)
    (calls : list call) :
  get_stats (run (new_stream c id) calls) !! "stream_id" = Some (VStr id)
  /\ get_stats (run (new_stream c id) calls) !! "processed_count"
     = Some (VInt (items_aggregated c calls))
  /\ dom (get_stats (run (new_stream c id) calls))
     = ({["stream_id"; "processed_count"]} : gset string).
Proof.
  assert (Hid : stream_id (run (new_stream c id) calls) = id)
    by (rewrite run_id; now destruct c).
  assert (Hn : processed_count (run (new_stream c id) calls)
               = items_aggregated c calls).
  { rewrite run_count. destruct c; simpl; lia. }
  unfold get_stats. rewrite Hid, Hn. split; [|split].
  - apply lookup_insert_eq.
  - rewrite lookup_insert_ne by discriminate. apply lookup_insert_eq.
  - rewrite !dom_insert_L, dom_empty_L. set_solver.
Qed.

(** ** Shared stream objects *)

Lemma add_processed_zero (self : DataStream) : add_processed self 0 = self.
Proof. destruct self. unfold add_processed. simpl. f_equal. lia. Qed.

Lemma add_processed_add (self : DataStream) (a b : Z) :
  add_processed (add_processed self a) b = add_processed self (a + b).
Proof. unfold add_processed. simpl. f_equal. lia. Qed.

Lemma process_batch_after (self : DataStream) (data_batch : list pyval) :
  snd (process_batch self data_batch)
  = add_processed self
      (if aggregated (class_of self) data_batch then len data_batch else 0).
Proof.
  destruct (process_batch_state self data_batch) as [[-> ->] | [-> ->]];
    [now rewrite add_processed_zero | reflexivity].
Qed.

Lemma process_streams_cons (l : loc) (rest : list loc)
    (data_map : gmap string (list pyval)) (h : heap) :
  fst (process_streams (l :: rest) data_map h)
  = fst (process_streams rest data_map
           (store h l (add_processed (h l) (items_for data_map (h l))))).
Proof.
  cbn [process_streams]. fold (batch_of data_map (h l)). unfold items_for.
  rewrite <- (process_batch_after (h l) (batch_of data_map (h l))).
  destruct (process_batch (h l) (batch_of data_map (h l))) as [r stream'].
  cbn [snd].
  now destruct (process_streams rest data_map (store h l stream')).
Qed.

Lemma process_streams_final (streams : list loc)
    (data_map : gmap string (list pyval)) (h : heap) (l : loc) :
  fst (process_streams streams data_map h) l
  = add_processed (h l) (occurrences l streams * items_for data_map (h l)).
Proof.
  revert h. induction streams as [|l' rest IH]; intros h.
  - simpl. now rewrite add_processed_zero.
  - rewrite process_streams_cons, IH. cbn [occurrences]. unfold store.
    rewrite (Nat.eqb_sym l' l).
    destruct (Nat.eqb_spec l l') as [<- | Hne].
    + change (items_for data_map
                (add_processed (h l) (items_for data_map (h l))))
        with (items_for data_map (h l)).
      rewrite add_processed_add. f_equal. lia.
    + f_equal.
Qed.

Lemma occurrences_absent (l : loc) (streams : list loc) :
  ~ In l streams -> occurrences l streams = 0.
Proof.
  induction streams as [|l' rest IH]; simpl; [reflexivity|].
  intros H. destruct (Nat.eqb_spec l' l) as [-> | _].
  - exfalso. auto.
  - rewrite IH; auto.
Qed.

Lemma occurrences_permutation (l : loc) (streams streams' : list loc) :
  Permutation streams streams' ->
  occurrences l streams = occurrences l streams'.
Proof. induction 1; simpl; lia. Qed.

(** X10.  After [process_streams], a stream object has had the items of its
    batch added to its count once for every occurrence of it in the list,
    when the aggregation of that batch completes, and is otherwise as it
    was; an object that is not in the list is not touched. *)
Theorem process_streams_counts_occurrences :
  (forall (streams : list loc) (data_map : gmap string (list pyval))
          (h : heap) (l : loc),
      fst (process_streams streams data_map h) l
      = add_processed (h l)
          (occurrences l streams * items_for data_map (h l)))
  /\ (forall (streams : list loc) (data_map : gmap string (list pyval))
             (h : heap) (l : loc),
      ~ In l streams ->
      fst (process_streams streams data_map h) l = h l).
Proof.
  split.
  - apply process_streams_final.
  - intros streams data_map h l Hl.
    rewrite process_streams_final, (occurrences_absent _ _ Hl).
    apply add_processed_zero.
Qed.

(** The sensor stream listed twice, the event stream at 1 not at all. *)
Lemma process_streams_counts_occurrences_witness :
  fst (process_streams [0%nat; 0%nat]
         {["SENSOR_001" := [VInt 20; VInt 40]]} demo_heap) 1%nat
  = demo_heap 1%nat.
Proof.
  apply (proj2 process_streams_counts_occurrences).
  intros [H | [H | []]]; discriminate H.
Defined.

(** X11.  The order of the streams in the list does not matter to the
    objects [process_streams] leaves behind. *)
Theorem process_streams_any_order (streams streams' : list loc)
    (data_map : gmap string (list pyval)) (h : heap) (l : loc) :
  Permutation streams streams' ->
  fst (process_streams streams data_map h) l
  = fst (process_streams streams' data_map h) l.
Proof.
  intros Hp. rewrite !process_streams_final.
  now rewrite (occurrences_permutation l _ _ Hp).
Qed.

Lemma process_streams_any_order_witness :
  fst (process_streams [0%nat; 1%nat]
         {["EVENT_001" := [VStr "login"]]} demo_heap) 1%nat
  = fst (process_streams [1%nat; 0%nat]
           {["EVENT_001" := [VStr "login"]]} demo_heap) 1%nat.
Proof.
  apply process_streams_any_order. apply perm_swap.
Defined.

(** ** Streams without an entry *)

Lemma process_batch_empty (self : DataStream) :
  process_batch self [] = (Ok (empty_report self), self).
Proof.
  unfold process_batch, empty_report. destruct self as [[] n id ty]; simpl.
  - reflexivity.
  - unfold TransactionStream.process_batch, add_processed, len. simpl.
    now rewrite Z.add_0_r.
  - unfold EventStream.process_batch, add_processed, len. simpl.
    now rewrite Z.add_0_r.
Qed.

Lemma process_streams_line (pre post : list loc) (l : loc)
    (data_map : gmap string (list pyval)) (h : heap) :
  snd (process_streams (pre ++ l :: post)%list data_map h) !! length pre
  = Some (process_line
            (snd (process_batch
                    (fst (process_streams pre data_map h) l)
                    (batch_of data_map
                       (fst (process_streams pre data_map h) l))))
            (fst (process_batch
                    (fst (process_streams pre data_map h) l)
                    (batch_of data_map
                       (fst (process_streams pre data_map h) l))))).
Proof.
  rewrite process_streams_app. cbn [snd].
  rewrite lookup_app_r by (now rewrite process_streams_length).
  rewrite process_streams_length, Nat.sub_diag.
  change (l :: post) with ([l] ++ post)%list.
  rewrite process_streams_app, process_streams_one. reflexivity.
Qed.

(** X12.  A stream whose identifier has no entry in the map is given the
    empty batch: the line printed for it is the failure string for a sensor
    stream and a report of zero items for the other two, wherever it stands
    in the list, and the object is left as it was by the whole pass. *)
Theorem process_streams_missing_entry (pre post : list loc) (l : loc)
    (data_map : gmap string (list pyval)) (h : heap) :
  data_map !! stream_id (h l) = None ->
  snd (process_streams (pre ++ l :: post)%list data_map h) !! length pre
  = Some (empty_report (h l))
  /\ fst (process_streams (pre ++ l :: post)%list data_map h) l = h l.
Proof.
  intros Hnone.
  assert (Hitems : items_for data_map (h l) = 0).
  { unfold items_for, batch_of. rewrite Hnone. simpl.
    now destruct (aggregated _ _). }
  split.
  - rewrite process_streams_line, process_streams_final, Hitems, Z.mul_0_r,
      add_processed_zero.
    unfold batch_of. rewrite Hnone. simpl.
    now rewrite process_batch_empty.
  - now rewrite process_streams_final, Hitems, Z.mul_0_r, add_processed_zero.
Qed.

(** The event stream at 1, with data for the sensor only. *)
Lemma process_streams_missing_entry_witness :
  snd (process_streams ([0%nat] ++ 1%nat :: [0%nat])%list
         {["SENSOR_001" := [VInt 20; VInt 40]]} demo_heap) !! length [0%nat]
  = Some (empty_report (demo_heap 1%nat))
  /\ fst (process_streams ([0%nat] ++ 1%nat :: [0%nat])%list
            {["SENSOR_001" := [VInt 20; VInt 40]]} demo_heap) 1%nat
     = demo_heap 1%nat.
Proof.
  apply process_streams_missing_entry. vm_compute. reflexivity.
Defined.

(** ** The filtering pass *)

Lemma filter_streams_map (streams : list loc)
    (data_map : gmap string (list pyval)) (criteria_map : gmap string string)
    (h : heap) :
  filter_streams streams data_map criteria_map h
  = map (fun l => filter_line (h l)
                    (filter_data (h l) (batch_of data_map (h l))
                       (criteria_map !! stream_id (h l))))
      streams.
Proof.
  induction streams as [|l rest IH]; [reflexivity|].
  cbn [filter_streams map]. now rewrite IH.
Qed.

Lemma filter_data_shorter (self : DataStream) (data_batch : list pyval)
    (criteria : option string) (kept : list pyval) :
  filter_data self data_batch criteria = Ok kept ->
  (length kept <= length data_batch)%nat.
Proof.
  intros H.
  destruct (filter_data_cases self data_batch criteria)
    as [Hid | [test [Heq _]]].
  - rewrite Hid in H. now injection H as <-.
  - rewrite Heq in H. apply filter_comp_sublist in H.
    now apply sublist_length.
Qed.

Lemma filter_data_type_error (self : DataStream) (data_batch : list pyval)
    (criteria : option string) (e : exn) :
  filter_data self data_batch criteria = Raise e -> e = TypeError.
Proof.
  intros H.
  destruct (filter_data_cases self data_batch criteria)
    as [Hid | [test [Heq [_ Htest]]]].
  - rewrite Hid in H. discriminate.
  - rewrite Heq in H. apply filter_comp_raise_inv in H as [v [_ Hv]].
    now destruct (Htest v e Hv).
Qed.

Lemma filter_data_empty (self : DataStream) (criteria : option string) :
  filter_data self [] criteria = Ok [].
Proof.
  unfold filter_data.
  destruct (class_of self), criteria as [c|]; simpl; try reflexivity;
    unfold SensorStream.filter_data, TransactionStream.filter_data,
      EventStream.filter_data;
    repeat match goal with
           | |- context [String.eqb c ?n] => destruct (String.eqb c n)
           end; reflexivity.
Qed.

(** X13.  [filter_streams] prints one line for each stream of the list, in
    order.  The line of a stream gives the number of items kept, which is
    never more than its batch has, or reports a [TypeError], the one error
    a filter raises.  A stream without an entry in the data map is reported
    with 0 items whatever its criteria, and a stream without a criteria
    with all the items of its batch. *)
Theorem filter_streams_lines (streams : list loc)
    (data_map : gmap string (list pyval)) (criteria_map : gmap string string)
    (h : heap) :
  length (filter_streams streams data_map criteria_map h) = length streams
  /\ (forall (i : nat) (l : loc),
      streams !! i = Some l ->
      (exists kept,
          filter_streams streams data_map criteria_map h !! i
          = Some [Str (VStr (stream_id (h l))); Lit ": ";
                  Str (VInt (len kept)); Lit " filtered item(s)"]
          /\ len kept <= len (batch_of data_map (h l)))
      \/ filter_streams streams data_map criteria_map h !! i
         = Some [Lit "Filtering error in "; Str (VStr (stream_id (h l)));
                 Lit ": "; Msg TypeError])
  /\ (forall (i : nat) (l : loc),
      streams !! i = Some l ->
      data_map !! stream_id (h l) = None ->
      filter_streams streams data_map criteria_map h !! i
      = Some [Str (VStr (stream_id (h l))); Lit ": "; Str (VInt 0);
              Lit " filtered item(s)"])
  /\ (forall (i : nat) (l : loc),
      streams !! i = Some l ->
      criteria_map !! stream_id (h l) = None ->
      filter_streams streams data_map criteria_map h !! i
      = Some [Str (VStr (stream_id (h l))); Lit ": ";
              Str (VInt (len (batch_of data_map (h l))));
              Lit " filtered item(s)"]).
Proof.
  rewrite filter_streams_map. split; [apply length_map|].
  split; [|split]; intros i l Hl; rewrite list_lookup_fmap, Hl; simpl.
  - destruct (filter_data (h l) (batch_of data_map (h l))
                (criteria_map !! stream_id (h l))) as [kept|e] eqn:Hf.
    + left. exists kept. split; [reflexivity|].
      apply filter_data_shorter in Hf. unfold len. lia.
    + right. now rewrite (filter_data_type_error _ _ _ _ Hf).
  - intros Hnone. unfold batch_of. rewrite Hnone. simpl.
    now rewrite filter_data_empty.
  - intros ->. f_equal.
    assert (filter_data (h l) (batch_of data_map (h l)) None
            = Ok (batch_of data_map (h l))) as ->; [|reflexivity].
    unfold filter_data. now destruct (class_of (h l)).
Qed.

(** The sensor stream and the event stream, the latter without an entry in
    either map. *)
Lemma filter_streams_lines_witness :
  filter_streams [0%nat; 1%nat] {["SENSOR_001" := [VInt 20; VInt 40]]}
    {["SENSOR_001" := "high"]} demo_heap !! 1%nat
  = Some [Str (VStr (stream_id (demo_heap 1%nat))); Lit ": "; Str (VInt 0);
          Lit " filtered item(s)"].
Proof.
  apply (proj1 (proj2 (proj2
           (filter_streams_lines [0%nat; 1%nat]
              {["SENSOR_001" := [VInt 20; VInt 40]]}
              {["SENSOR_001" := "high"]} demo_heap)))).
  - reflexivity.
  - vm_compute. reflexivity.
Defined.

(** ** Validation, then processing *)

Lemma for_each_floats (items : list pyval) :
  for_each getattr_is_integer items
  = if forallb is_float items then Ok tt else Raise AttributeError.
Proof.
  induction items as [|x items IH]; [reflexivity|]. simpl.
  unfold getattr_is_integer at 1. destruct (is_float x); simpl; auto.
Qed.

Lemma numeric_validate_verdict (data : pyval) :
  NumericProcessor.validate data
  = if accepts_numeric data
    then (["Validation: Numeric data verified"], Ok true)
    else (["Not list of numbers"], Ok false).
Proof.
  unfold NumericProcessor.validate.
  destruct data as [| | | |s|l]; try reflexivity.
  - destruct s; reflexivity.
  - cbn [py_iter bind accepts_numeric]. rewrite for_each_floats.
    now destruct (forallb is_float l).
Qed.

Lemma accepts_numeric_spec (data : pyval) :
  accepts_numeric data = true <->
  (exists l, data = VList l /\ Forall (fun v => is_float v = true) l)
  \/ data = VStr "".
Proof.
  destruct data as [| | | |s|l]; simpl;
    try (split; [discriminate | intros [[l' [H _]] | H]; discriminate]).
  - destruct s; split; auto; try discriminate.
    intros [[l' [H _]] | H]; discriminate.
  - split.
    + intros H. left. exists l. split; [reflexivity|].
      apply Forall_forall. intros v Hv. rewrite forallb_forall in H.
      apply H. now apply list_elem_of_In.
    + intros [[l' [[= <-] H]] | H]; [|discriminate].
      apply forallb_forall. intros v Hv. rewrite Forall_forall in H.
      apply H. now apply list_elem_of_In.
Qed.

(** X14.  Of the values modelled (None, booleans, ints, floats, strings
    and lists), [NumericProcessor.validate] returns [True] for a list
    whose items are all floats, the empty list among them, and for the
    empty string, and [False], with its diagnostic, for the others: for a
    list holding an int, a boolean or anything else without [is_integer],
    such as [[1, 2, 3, 4, 5]], for a string with a character, and for what
    is not iterable. *)
Theorem numeric_validate_accepts :
  (forall data : pyval,
      NumericProcessor.validate data
      = (if accepts_numeric data
         then (["Validation: Numeric data verified"], Ok true)
         else (["Not list of numbers"], Ok false)))
  /\ (forall data : pyval,
      accepts_numeric data = true <->
      (exists l, data = VList l /\ Forall (fun v => is_float v = true) l)
      \/ data = VStr "")
  /\ (forall (l : list pyval) (v : pyval),
      In v l -> is_float v = false ->
      NumericProcessor.validate (VList l)
      = (["Not list of numbers"], Ok false))
  /\ NumericProcessor.validate (VList (map VInt [1; 2; 3; 4; 5]))
     = (["Not list of numbers"], Ok false).
Proof.
  split; [apply numeric_validate_verdict|].
  split; [apply accepts_numeric_spec|].
  split; [|reflexivity].
  intros l v Hin Hv. rewrite numeric_validate_verdict.
  destruct (accepts_numeric (VList l)) eqn:Hacc; [|reflexivity].
  simpl in Hacc. rewrite forallb_forall in Hacc.
  rewrite (Hacc v Hin) in Hv. discriminate.
Qed.

(** A float among strings. *)
Lemma numeric_validate_accepts_witness :
  NumericProcessor.validate (VList [VFloat f22_5; VStr "50"])
  = (["Not list of numbers"], Ok false).
Proof.
  apply (proj1 (proj2 (proj2 numeric_validate_accepts))
           [VFloat f22_5; VStr "50"] (VStr "50"));
    [right; left; reflexivity | reflexivity].
Defined.




(** ** Words *)

Lemma append_assoc_str (a b c : string) :
  (a +:+ b) +:+ c = a +:+ (b +:+ c).
Proof.
  induction a as [|x a IH]; [reflexivity|].
  change (String x ((a +:+ b) +:+ c) = String x (a +:+ (b +:+ c))).
  now f_equal.
Qed.

Lemma append_empty_r (a : string) : a +:+ EmptyString = a.
Proof.
  induction a as [|x a IH]; [reflexivity|].
  change (String x (a +:+ EmptyString) = String x a). now f_equal.
Qed.

Lemma append_char_nonempty (w : string) (c : ascii) :
  w +:+ String c EmptyString <> EmptyString.
Proof. now destruct w. Qed.

Lemma no_space_empty : no_space EmptyString.
Proof. intros c []. Qed.

Lemma no_space_cons (c : ascii) (w : string) :
  no_space (String c w) <-> is_space c = false /\ no_space w.
Proof.
  unfold no_space. simpl. split.
  - intros H. split; [apply H; now left | intros c' Hc'; apply H; now right].
  - intros [Hc Hw] c' [<- | Hc']; auto.
Qed.

Lemma no_space_snoc (w : string) (c : ascii) :
  no_space w -> is_space c = false -> no_space (w +:+ String c EmptyString).
Proof.
  induction w as [|x w IH]; simpl; intros Hw Hc.
  - apply no_space_cons. split; [exact Hc | apply no_space_empty].
  - apply no_space_cons in Hw as [Hx Hw]. apply no_space_cons. auto.
Qed.

(** The words of [split] have at least one character and no whitespace. *)
Lemma split_from_words (s word : string) :
  no_space word ->
  Forall (fun w => w <> EmptyString /\ no_space w) (split_from word s).
Proof.
  revert word. induction s as [|c s IH]; intros word Hw; simpl.
  - destruct word; constructor; [split; [discriminate | exact Hw]|].
    constructor.
  - destruct (is_space c) eqn:Hc.
    + destruct word.
      * apply IH, no_space_empty.
      * constructor; [split; [discriminate | exact Hw]|].
        apply IH, no_space_empty.
    + apply IH. now apply no_space_snoc.
Qed.

(** Two words need a character between them. *)
Lemma split_from_bound (s word : string) :
  (2 * length (split_from word s)
   <= String.length s + match word with EmptyString => 1 | _ => 2 end)%nat.
Proof.
  revert word. induction s as [|c s IH]; intros word; simpl.
  - destruct word; simpl; lia.
  - destruct (is_space c).
    + destruct word.
      * specialize (IH EmptyString). simpl in IH. lia.
      * specialize (IH EmptyString). simpl in *. lia.
    + specialize (IH (word +:+ String c EmptyString)).
      destruct (word +:+ String c EmptyString) eqn:Hw.
      * now apply append_char_nonempty in Hw.
      * destruct word; lia.
Qed.

Lemma split_from_spaceless (x word : string) :
  no_space x ->
  split_from word x
  = match word +:+ x with EmptyString => [] | wx => [wx] end.
Proof.
  revert word. induction x as [|c x IH]; intros word Hx.
  - simpl. rewrite append_empty_r. now destruct word.
  - apply no_space_cons in Hx as [Hc Hx]. cbn [split_from]. rewrite Hc.
    rewrite (IH _ Hx), append_assoc_str. reflexivity.
Qed.

Lemma split_from_separator (a b word : string) (c : ascii) :
  is_space c = true ->
  split_from word (a +:+ String c b)
  = (split_from word a ++ split_from EmptyString b)%list.
Proof.
  intros Hc. revert word. induction a as [|x a IH]; intros word.
  - simpl. rewrite Hc. now destruct word.
  - change (String x a +:+ String c b) with (String x (a +:+ String c b)).
    cbn [split_from]. destruct (is_space x).
    + destruct word; [apply IH|]. cbn [app]. now rewrite IH.
    + apply IH.
Qed.

Lemma split_join (words : list string) :
  Forall (fun w => w <> EmptyString /\ no_space w) words ->
  split_words (join_words words) = words.
Proof.
  unfold split_words. induction 1 as [|w rest [Hne Hw] Hrest IH].
  - reflexivity.
  - destruct rest as [|w' rest].
    + simpl. rewrite (split_from_spaceless _ _ Hw). simpl.
      destruct w; [congruence | reflexivity].
    + change (join_words (w :: w' :: rest))
        with (w +:+ String " " (join_words (w' :: rest))).
      rewrite split_from_separator by reflexivity.
      rewrite IH, (split_from_spaceless _ _ Hw). simpl.
      destruct w; [congruence | reflexivity].
Qed.

Lemma text_process_string (s : string) :
  TextProcessor.process (VStr s)
  = Ok [Lit "Processed text: "; Str (VInt (Z.of_nat (String.length s)));
        Lit ", "; Str (VInt (Z.of_nat (length (split_words s))));
        Lit " words"].
Proof.
  unfold TextProcessor.process. cbn [py_len call_split bind].
  now rewrite length_map.
Qed.

(** X16.  [TextProcessor.validate] returns [True] exactly when [process]
    returns: on strings.  On anything else [process] raises. *)
Theorem text_validate_iff_process (data : pyval) :
  snd (TextProcessor.validate data) = Ok true <->
  exists report, TextProcessor.process data = Ok report.
Proof.
  destruct data as [| | | |s|l]; simpl;
    try (split; [discriminate | intros [r H]; discriminate]).
  split; [intros _ | reflexivity].
  rewrite text_process_string. eauto.
Qed.

(** X17.  For a string, [TextProcessor.process] reports its length and the
    number of its words; the words have at least one character and no
    whitespace each, so that twice their number is at most the length
    plus one. *)
Theorem text_process_words (s : string) :
  TextProcessor.process (VStr s)
  = Ok [Lit "Processed text: "; Str (VInt (Z.of_nat (String.length s)));
        Lit ", "; Str (VInt (Z.of_nat (length (split_words s))));
        Lit " words"]
  /\ Forall (fun w => w <> EmptyString /\ no_space w) (split_words s)
  /\ (2 * length (split_words s) <= String.length s + 1)%nat.
Proof.
  split; [apply text_process_string|]. split.
  - apply split_from_words, no_space_empty.
  - apply (split_from_bound s EmptyString).
Qed.

(** X18.  Words joined by single spaces are counted again by
    [TextProcessor.process]: splitting the joined string gives the words
    back. *)
Theorem text_process_joined (words : list string) :
  Forall (fun w => w <> EmptyString /\ no_space w) words ->
  split_words (join_words words) = words
  /\ TextProcessor.process (VStr (join_words words))
     = Ok [Lit "Processed text: ";
           Str (VInt (Z.of_nat (String.length (join_words words))));
           Lit ", "; Str (VInt (Z.of_nat (length words))); Lit " words"].
Proof.
  intros H. split; [now apply split_join|].
  now rewrite text_process_string, (split_join _ H).
Qed.

(** The text of the demo. *)
Lemma text_process_joined_witness :
  split_words (join_words ["Hello"; "Nexus"; "World"])
  = ["Hello"; "Nexus"; "World"]
  /\ TextProcessor.process (VStr (join_words ["Hello"; "Nexus"; "World"]))
     = Ok [Lit "Processed text: ";
           Str (VInt (Z.of_nat
                        (String.length
                           (join_words ["Hello"; "Nexus"; "World"]))));
           Lit ", "; Str (VInt (Z.of_nat (length ["Hello"; "Nexus"; "World"])));
           Lit " words"].
Proof.
  apply text_process_joined.
  repeat constructor; try discriminate;
    intros c Hc; simpl in Hc;
    repeat (destruct Hc as [<- | Hc]; [reflexivity|]); destruct Hc.
Defined.

(** ** Log entries *)

Lemma log_process_string (s : string) :
  LogProcessor.process (VStr s)
  = Ok (if str_contains "ERROR" s
        then "[ALERT] ERROR level detected: " +:+ drop_chars 7 s
        else if str_contains "INFO" s
             then "[INFO] INFO level detected: " +:+ drop_chars 6 s
             else "").
Proof.
  unfold LogProcessor.process. cbn [call_find_found bind concat_slice].
  destruct (str_contains "ERROR" s); [reflexivity|].
  now destruct (str_contains "INFO" s).
Qed.

(** X19.  [LogProcessor.validate] returns [True] exactly when [process]
    returns a line that is not empty: on the strings with "ERROR" or "INFO"
    in them.  On the other strings [process] returns the empty string, and
    on what is not a string it raises [AttributeError]. *)
Theorem log_validate_iff_process (data : pyval) :
  (snd (LogProcessor.validate data) = Ok true <->
   exists line, LogProcessor.process data = Ok line /\ line <> "")
  /\ (snd (LogProcessor.validate data) = Ok true <->
      exists s, data = VStr s
        /\ (substring_of "ERROR" s \/ substring_of "INFO" s))
  /\ (forall s, data = VStr s ->
      snd (LogProcessor.validate data) = Ok false ->
      LogProcessor.process data = Ok "")
  /\ (isinstance_str data = false ->
      LogProcessor.process data = Raise AttributeError).
Proof.
  destruct data as [| | | |s|l];
    try (repeat split; try discriminate; try reflexivity;
         [intros [line [H _]]; discriminate
         | intros [s [H _]]; discriminate]).
  rewrite log_process_string. unfold LogProcessor.validate.
  cbn [call_find_found bind].
  destruct (str_contains "ERROR" s) eqn:He; cbn [snd];
    [|destruct (str_contains "INFO" s) eqn:Hi; cbn [snd]].
  - apply str_contains_spec in He.
    repeat split; try discriminate; eauto;
      intros _; eexists; (split; [reflexivity | discriminate]).
  - apply str_contains_spec in Hi.
    repeat split; try discriminate; eauto;
      intros _; eexists; (split; [reflexivity | discriminate]).
  - repeat split; try discriminate.
    + intros [line [[= <-] H]]. now contradict H.
    + intros [s' [[= <-] [H | H]]]; apply str_contains_spec in H; congruence.
Qed.

Lemma log_validate_iff_process_witness :
  LogProcessor.process (VStr "DEBUG: cache warm") = Ok "".
Proof.
  apply (proj1 (proj2 (proj2 (log_validate_iff_process
                                 (VStr "DEBUG: cache warm"))))
           "DEBUG: cache warm"); reflexivity.
Defined.

Lemma info_prefix_no_error (msg : string) :
  str_contains "ERROR" ("INFO: " +:+ msg) = str_contains "ERROR" msg.
Proof. reflexivity. Qed.

(** X20.  An entry ["ERROR: " + msg] is turned into the alert line with
    [msg], and an entry ["INFO: " + msg] into the info line with [msg],
    provided [msg] has no "ERROR" in it; if it has, the entry is taken for
    an error and the seven characters cut off include the first one of
    [msg]. *)
Theorem log_process_prefixes :
  (forall msg : string,
      LogProcessor.process (VStr ("ERROR: " +:+ msg))
      = Ok ("[ALERT] ERROR level detected: " +:+ msg))
  /\ (forall msg : string,
      ~ substring_of "ERROR" msg ->
      LogProcessor.process (VStr ("INFO: " +:+ msg))
      = Ok ("[INFO] INFO level detected: " +:+ msg))
  /\ (forall msg : string,
      substring_of "ERROR" msg ->
      LogProcessor.process (VStr ("INFO: " +:+ msg))
      = Ok ("[ALERT] ERROR level detected: " +:+ drop_chars 1 msg)).
Proof.
  split; [|split]; intros msg.
  - reflexivity.
  - intros H. rewrite log_process_string, info_prefix_no_error.
    destruct (str_contains "ERROR" msg) eqn:He.
    + exfalso. apply H. now apply str_contains_spec.
    + reflexivity.
  - intros H. apply str_contains_spec in H.
    rewrite log_process_string, info_prefix_no_error, H. reflexivity.
Qed.

(** The entry of the demo, and one whose message speaks of an error. *)
Lemma log_process_prefixes_witness :
  LogProcessor.process (VStr ("INFO: " +:+ "System ready"))
  = Ok ("[INFO] INFO level detected: " +:+ "System ready")
  /\ LogProcessor.process (VStr ("INFO: " +:+ "no ERROR today"))
     = Ok ("[ALERT] ERROR level detected: " +:+ drop_chars 1 "no ERROR today").
Proof.
  split.
  - apply (proj1 (proj2 log_process_prefixes)).
    intros H. apply str_contains_spec in H. discriminate H.
  - apply (proj2 (proj2 log_process_prefixes)).
    apply str_contains_spec. reflexivity.
Defined.
